(** * make_weeks: weekly schedule generator

    A shallow embedding of [schedule/make_weeks.py] and the properties of
    its calendar engine, argument parser, document generator and file
    writer.

    Conventions.
    - A Python [str] is a Rocq [string]; a character is the code point
      [0..255] that [ascii] ranges over, and the [str] methods below are
      Python's on that range.
    - A [datetime.date] is its proleptic Gregorian ordinal
      ([date.toordinal()]), an integer in [1 .. MAXORDINAL]; Python orders
      dates as it orders their ordinals.
    - An exception is a value of [exn]; a computation that may raise returns
      [exn + A]. *)

From Stdlib Require Import ZArith Lia Ascii DecimalString.
From Stdlib Require DecimalZ DecimalPos.
From stdpp Require Import base decidable option list list_numbers sorting gmap strings.

Local Open Scope Z_scope.

(** ** Exceptions *)

Inductive value_error :=
| Unknown_day_token (tok : string)   (* raised by parse_meeting_days *)
| Invalid_literal (x : string)       (* int(x) on a non-numeral *)
| Not_enough_values                  (* m, d, y = ... with fewer than 3 items *)
| Too_many_values                    (* m, d, y = ... with more than 3 items *)
| Date_out_of_range                  (* date(y, m, d) with a bad field *)
| Not_in_list.                       (* l.index(x) without x in l *)

Inductive exn :=
| SystemExit_code (status : Z)       (* sys.exit(1) *)
| SystemExit_msg (msg : string)      (* raise SystemExit("...") *)
| ValueError (why : value_error)
| IndexError                         (* l[i] past the end *)
| OverflowError.

Definition result (A : Type) : Type := exn + A.

Definition bind_result {A B} (r : result A) (k : A → result B) : result B :=
  match r with
  | inl e => inl e
  | inr a => k a
  end.

Declare Scope result_scope.
Delimit Scope result_scope with result.
Notation "'let?' x ':=' r 'in' k" := (bind_result r (fun x => k))
  (at level 10, x pattern, r at level 100, k at level 200) : result_scope.
Local Open Scope result_scope.

(** ** Python [str] methods, on code points 0..255 *)

Module Str.

Definition code (c : ascii) : N := N_of_ascii c.

(** [c.isspace()]: TAB..CR, FS..US, SPACE, NEL and NBSP. *)
Definition isspace (c : ascii) : bool :=
  let n := code c in
  ((9 <=? n) && (n <=? 13) || (28 <=? n) && (n <=? 32)
   || (n =? 133) || (n =? 160))%N.

(** [c.isalpha()]: the letters of Basic Latin and Latin-1. *)
Definition isalpha_char (c : ascii) : bool :=
  let n := code c in
  ((65 <=? n) && (n <=? 90) || (97 <=? n) && (n <=? 122)
   || (n =? 170) || (n =? 181) || (n =? 186)
   || (192 <=? n) && (n <=? 214) || (216 <=? n) && (n <=? 246)
   || (248 <=? n))%N.

(** [c.lower()]: A..Z and the Latin-1 capitals move up by 32. *)
Definition lower_char (c : ascii) : ascii :=
  let n := code c in
  if ((65 <=? n) && (n <=? 90) || (192 <=? n) && (n <=? 214)
      || (216 <=? n) && (n <=? 222))%N
  then ascii_of_N (n + 32) else c.

Definition to_list (s : string) : list ascii := String.list_ascii_of_string s.
Definition of_list (l : list ascii) : string := String.string_of_list_ascii l.

(** [s.lower()] *)
Definition lower (s : string) : string := of_list (map lower_char (to_list s)).

(** [s.isalpha()]: non-empty and every character alphabetic. *)
Definition isalpha (s : string) : bool :=
  match to_list s with
  | [] => false
  | l => forallb isalpha_char l
  end.

(** [s.replace(a, b)] for one-character [a] and [b]. *)
Definition replace (a b : ascii) (s : string) : string :=
  of_list (map (fun c => if Ascii.eqb c a then b else c) (to_list s)).

Fixpoint lstrip_list (l : list ascii) : list ascii :=
  match l with
  | c :: l' => if isspace c then lstrip_list l' else l
  | [] => []
  end.

(** [s.strip()] *)
Definition strip (s : string) : string :=
  of_list (rev (lstrip_list (rev (lstrip_list (to_list s))))).

(** [c in s] for a one-character [c]. *)
Definition contains (c : ascii) (s : string) : bool :=
  existsb (Ascii.eqb c) (to_list s).

(** [len(s)] *)
Definition len (s : string) : Z := Z.of_nat (String.length s).

(** [list(s)]: the one-character strings of [s]. *)
Definition chars (s : string) : list string :=
  map (fun c => String c EmptyString) (to_list s).

(** [s.split()]: maximal runs of non-whitespace; [cur] holds the run being
    read, last character first. *)
Fixpoint split_ws (cur : list ascii) (l : list ascii) : list string :=
  match l with
  | [] => match cur with [] => [] | _ => [of_list (rev cur)] end
  | c :: l' =>
      if isspace c
      then match cur with
           | [] => split_ws [] l'
           | _ => of_list (rev cur) :: split_ws [] l'
           end
      else split_ws (c :: cur) l'
  end.

Definition split (s : string) : list string := split_ws [] (to_list s).

(** [s.split(sep)] for a one-character [sep]: never empty, keeps empty
    fields. *)
Fixpoint split_sep (sep : ascii) (cur : list ascii) (l : list ascii) : list string :=
  match l with
  | [] => [of_list (rev cur)]
  | c :: l' =>
      if Ascii.eqb c sep
      then of_list (rev cur) :: split_sep sep [] l'
      else split_sep sep (c :: cur) l'
  end.

Definition split_on (sep : ascii) (s : string) : list string :=
  split_sep sep [] (to_list s).

(** ["sep".join(lines)] *)
Fixpoint join (sep : string) (lines : list string) : string :=
  match lines with
  | [] => EmptyString
  | [x] => x
  | x :: rest => x +:+ sep +:+ join sep rest
  end.

End Str.

(** ** The day-name table *)

(** The items of the dict literal, as written. *)
Definition DAY_NAME_ITEMS : list (string * Z) :=
  [ ("m", 0); ("mon", 0); ("monday", 0);
    ("t", 1); ("tu", 1); ("tue", 1); ("tues", 1); ("tuesday", 1);
    ("w", 2); ("wed", 2); ("wednesday", 2);
    ("r", 3); ("th", 3); ("thu", 3); ("thur", 3); ("thurs", 3); ("thursday", 3);
    ("f", 4); ("fri", 4); ("friday", 4);
    ("sa", 5); ("sat", 5); ("saturday", 5);
    ("su", 6); ("sun", 6); ("sunday", 6) ].

Definition DAY_NAME_MAP : gmap string Z := list_to_map DAY_NAME_ITEMS.

(** ** parse_meeting_days *)

(** Lines 45-51: the tokens of a meeting-day string, compact form or
    whitespace/comma separated. *)
Definition tokens_of (meeting_days_str : string) : list string :=
  let s := Str.strip (Str.replace "," " " meeting_days_str) in
  if negb (Str.contains " " s) && Str.isalpha s
     && (1 <? Str.len s) && (Str.len s <=? 3)
  then Str.chars s
  else Str.split s.

(** Lines 53-60: the loop over the tokens; [weekdays] is the list built so
    far. *)
Fixpoint collect_weekdays (tokens : list string) (weekdays : list Z) : result (list Z) :=
  match tokens with
  | [] => inr weekdays
  | tok :: rest =>
      let key := Str.lower tok in
      match DAY_NAME_MAP !! key with
      | None => inl (ValueError (Unknown_day_token tok))
      | Some wd =>
          collect_weekdays rest
            (if bool_decide (wd ∈ weekdays) then weekdays else weekdays ++ [wd])
      end
  end.

(** [weekdays.sort()] on a list of integers: the ascending rearrangement. *)
Definition sort (l : list Z) : list Z := merge_sort Z.le l.

Definition parse_meeting_days (meeting_days_str : string) : result (list Z) :=
  let? weekdays := collect_weekdays (tokens_of meeting_days_str) [] in
  inr (sort weekdays).

(** ** Dates

    [date.min] is 0001-01-01 (ordinal 1, a Monday) and [date.max] is
    9999-12-31 (ordinal 3652059, a Friday). *)

Definition date : Type := Z.

Definition MAXORDINAL : Z := 3652059.

Definition is_date (d : Z) : Prop := 1 ≤ d ≤ MAXORDINAL.

(** [d.weekday()]: Monday is 0, Sunday is 6. *)
Definition weekday (d : date) : Z := (d + 6) `mod` 7.

(** [d + timedelta(days=n)]. Python raises [OverflowError] when the sum
    leaves [date.min .. date.max]; a [timedelta] that cannot be built at all
    (more than 999999999 days) raises the same exception, and its sum would
    be out of range as well. *)
Definition date_add (d : date) (n : Z) : result date :=
  if (1 <=? d + n) && (d + n <=? MAXORDINAL) then inr (d + n)
  else inl OverflowError.

(** ** build_schedule *)

(** The tuple yielded by the generator. *)
Record Week := mkWeek {
  week_number : Z;
  week_start : date;
  week_end : date;
  meeting_dates : list date
}.

(** How the iteration over the generator ends: the loop leaves through
    [break], or an exception escapes from it. [Unfinished] is what the
    model answers when its iteration budget is used up; see
    [build_schedule_finishes]. *)
Inductive gen_end :=
| StopIteration
| Raised (e : exn)
| Unfinished.

Section build_schedule.
Variables (start_date end_date : date).
Variable meeting_days : list Z.
Variable no_class_dates : gset date.

(** Line 84: [start_date <= d <= end_date and d not in no_class_dates]. *)
Definition is_meeting (d : date) : bool :=
  (start_date <=? d) && (d <=? end_date)
  && negb (bool_decide (d ∈ no_class_dates)).

(** Lines 82-85: the loop over the meeting weekdays of one week;
    [meetings] is the list built so far. *)
Fixpoint week_meetings (week_start : date) (days : list Z)
    (meetings : list date) : result (list date) :=
  match days with
  | [] => inr meetings
  | wd :: rest =>
      let? d := date_add week_start wd in
      week_meetings week_start rest
        (if is_meeting d then meetings ++ [d] else meetings)
  end.

(** Lines 74-88: the [while True] loop, one iteration per unit of
    [fuel]. Returns the weeks yielded, in order, and how the loop ended. *)
Fixpoint schedule_loop (fuel : nat) (first_monday : date) (week_index : Z)
    : list Week * gen_end :=
  match fuel with
  | O => ([], Unfinished)
  | S fuel' =>
      match date_add first_monday (7 * week_index) with
      | inl e => ([], Raised e)
      | inr week_start =>
          match date_add week_start 6 with
          | inl e => ([], Raised e)
          | inr week_end =>
              if end_date <? week_start then ([], StopIteration)
              else
                match week_meetings week_start meeting_days [] with
                | inl e => ([], Raised e)
                | inr meetings =>
                    let '(weeks, fin) :=
                      schedule_loop fuel' first_monday (week_index + 1) in
                    (mkWeek (week_index + 1) week_start week_end meetings
                       :: weeks, fin)
                end
          end
      end
  end.

(** The generator, run to its end. The budget is one iteration per day
    between the first Monday and [end_date], and two more. *)
Definition build_schedule : list Week * gen_end :=
  match date_add start_date (- weekday start_date) with
  | inl e => ([], Raised e)
  | inr first_monday =>
      schedule_loop (Z.to_nat (end_date - first_monday) + 2) first_monday 0
  end.

End build_schedule.

(** A meeting-day pattern of the data model: distinct weekday numbers
    0..6 in ascending order. *)
Definition MeetingDayPattern (days : list Z) : Prop :=
  StronglySorted Z.lt days ∧ Forall (fun wd => 0 ≤ wd ≤ 6) days.

(** The Mondays [m] whose week [m .. m+6] meets [start_date .. end_date]:
    the Mondays from [start_date - 6] to [end_date]. *)
Definition calendar_weeks (start_date end_date : date) : list date :=
  filter (fun m => weekday m = 0) (seqZ (start_date - 6) (end_date - start_date + 7)).

Definition week_count (start_date end_date : date) : Z :=
  Z.of_nat (length (calendar_weeks start_date end_date)).

(** ** Building a date: [date(y, m, d)]

    The arithmetic of the [datetime] module. *)

Definition is_leap (y : Z) : bool :=
  (y `mod` 4 =? 0) && (negb (y `mod` 100 =? 0) || (y `mod` 400 =? 0)).

Definition days_in_month (y m : Z) : Z :=
  if m =? 2 then (if is_leap y then 29 else 28)
  else if (m =? 4) || (m =? 6) || (m =? 9) || (m =? 11) then 30
  else 31.

Definition days_before_year (y : Z) : Z :=
  let y1 := y - 1 in y1 * 365 + y1 / 4 - y1 / 100 + y1 / 400.

Definition days_before_month (y m : Z) : Z :=
  foldr Z.add 0 (days_in_month y <$> seqZ 1 (m - 1)).

Definition ymd2ord (y m d : Z) : Z :=
  days_before_year y + days_before_month y m + d.

Definition fits_c_int (n : Z) : bool := (- 2147483648 <=? n) && (n <=? 2147483647).

(** [date(y, m, d)]: the three integers must fit a C [int]
    ([OverflowError] otherwise) and name a day of the calendar
    ([ValueError] otherwise). *)
Definition mkdate (y m d : Z) : result date :=
  if negb (fits_c_int y && fits_c_int m && fits_c_int d) then inl OverflowError
  else if (1 <=? y) && (y <=? 9999) && (1 <=? m) && (m <=? 12)
          && (1 <=? d) && (d <=? days_in_month y m)
  then inr (ymd2ord y m d)
  else inl (ValueError Date_out_of_range).

(** ** Formatting *)

Definition dq : string := String "034" EmptyString.
Definition nl : string := String "010" EmptyString.

(** [str(n)] *)
Definition str_of_Z (n : Z) : string := NilZero.string_of_int (Z.to_int n).

(** [f"{n:02d}"]: zero-padded to two characters, the sign counted. *)
Definition format_02d (n : Z) : string :=
  if (0 <=? n) && (n <? 10) then "0" +:+ str_of_Z n else str_of_Z n.

(** ** The process: output written, files written, how it ends *)

Record world := mkWorld {
  files : list (string * string);   (* write_text calls, oldest first *)
  stdout : list string              (* print calls, oldest first *)
}.

Definition init : world := mkWorld [] [].

Inductive outcome (A : Type) :=
| Returns (a : A)
| Raises (e : exn)
| Diverges.
Arguments Returns {A} a.
Arguments Raises {A} e.
Arguments Diverges {A}.

Definition prog (A : Type) : Type := world → outcome A * world.

Definition ret {A} (a : A) : prog A := fun w => (Returns a, w).
Definition raise {A} (e : exn) : prog A := fun w => (Raises e, w).
Definition diverge {A} : prog A := fun w => (Diverges, w).

Definition bind {A B} (c : prog A) (k : A → prog B) : prog B :=
  fun w =>
    match c w with
    | (Returns a, w') => k a w'
    | (Raises e, w') => (Raises e, w')
    | (Diverges, w') => (Diverges, w')
    end.

Definition lift {A} (r : result A) : prog A :=
  match r with
  | inl e => raise e
  | inr a => ret a
  end.

Declare Scope prog_scope.
Delimit Scope prog_scope with prog.
Bind Scope prog_scope with prog.
Notation "'do' x '<-' c ';' k" := (bind c (fun x => k))
  (at level 10, x pattern, c at level 100, k at level 200) : prog_scope.
Notation "c ';;' k" := (bind c (fun _ => k))
  (at level 100, k at level 200, right associativity) : prog_scope.

(** [print(s)] *)
Definition print (s : string) : prog unit :=
  fun w => (Returns tt, mkWorld (files w) (stdout w ++ [s])).

(** [Path(path).write_text(text, encoding="utf-8")], in a working directory
    that accepts the write. *)
Definition write_text (path text : string) : prog unit :=
  fun w => (Returns tt, mkWorld (files w ++ [(path, text)]) (stdout w)).

(** The module docstring, [__doc__]. *)
Definition module_doc : string :=
  Str.join nl
    [ "";
      "Generate PreTeXt weekly schedule files (weekXX.ptx) for a course,";
      "plus a main.ptx that includes them all.";
      "";
      "Usage examples:";
      "    python3 make_weeks.py 3/12/2026 6/2/2026 " +:+ dq +:+ "Mon Wed" +:+ dq;
      "    python3 make_weeks.py 3/12/2026 6/2/2026 " +:+ dq +:+ "MWF" +:+ dq
        +:+ " --no-class 3/27/2026,4/10/2026";
      "" ].

(** [l[i]] *)
Definition item (l : list string) (i : nat) : result string :=
  match l !! i with
  | Some x => inr x
  | None => inl IndexError
  end.

(** [l.index(x)]: the first position of [x]. *)
Fixpoint index (x : string) (l : list string) : result nat :=
  match l with
  | [] => inl (ValueError Not_in_list)
  | y :: l' =>
      if bool_decide (y = x) then inr O
      else let? i := index x l' in inr (S i)
  end.

Section program.

(** Python's [int(x)] on a [str]; [None] when it raises [ValueError]. *)
Variable int : string → option Z.

(** The platform's [d.strftime(fmt)]. *)
Variable strftime : date → string → string.

Definition to_int (x : string) : result Z :=
  match int x with
  | Some n => inr n
  | None => inl (ValueError (Invalid_literal x))
  end.

(** The unpacking [m, d, y = (int(x) for x in ...)] draws three items
    from the generator and then asks for a fourth; [int] runs on each
    item as it is drawn. *)
Definition parse_date (dstr : string) : result date :=
  match Str.split_on "/" (Str.strip dstr) with
  | [] => inl (ValueError Not_enough_values)
  | [a] =>
      let? _ := to_int a in inl (ValueError Not_enough_values)
  | [a; b] =>
      let? _ := to_int a in
      let? _ := to_int b in inl (ValueError Not_enough_values)
  | [a; b; c] =>
      let? m := to_int a in
      let? d := to_int b in
      let? y := to_int c in
      mkdate y m d
  | a :: b :: c :: x :: _ =>
      let? _ := to_int a in
      let? _ := to_int b in
      let? _ := to_int c in
      let? _ := to_int x in inl (ValueError Too_many_values)
  end.

Fixpoint parse_dates (parts : list string) : result (list date) :=
  match parts with
  | [] => inr []
  | p :: rest =>
      let? d := parse_date p in
      let? ds := parse_dates rest in
      inr (d :: ds)
  end.

Definition parse_date_list (s : string) : result (gset date) :=
  if bool_decide (s = EmptyString) then inr ∅
  else
    let? ds := parse_dates (Str.split (Str.replace "," " " s)) in
    inr (list_to_set ds).

Definition format_date_for_title (d : date) : string := strftime d "%B %-d".

Definition format_date_for_meeting_title (d : date) : string := strftime d "%B %d".

(** Lines 117-123: the list item of one meeting. *)
Definition meeting_item (d : date) : list string :=
  let day_title := format_date_for_meeting_title d in
  [ "      <li>";
    "        <title>" +:+ day_title +:+ "</title>";
    "        <p>";
    "          Material";
    "        </p>";
    "      </li>" ].

Definition week_xml_lines (week_number : Z) (week_start week_end : date)
    (meeting_dates : list date) : list string :=
  let week_id := format_02d week_number in
  let start_str := format_date_for_title week_start in
  let end_str := format_date_for_title week_end in
  ([ "<?xml version=" +:+ dq +:+ "1.0" +:+ dq +:+ " encoding=" +:+ dq +:+ "utf-8" +:+ dq +:+ "?>";
     "<subsection xml:id=" +:+ dq +:+ "week-" +:+ week_id +:+ dq +:+ ">";
     "  <title>" +:+ start_str +:+ " <ndash/> " +:+ end_str +:+ "</title>";
     "  <p>";
     "    <dl>" ]
   ++ concat (meeting_item <$> meeting_dates)
   ++ [ "    </dl>";
        "  </p>";
        "</subsection>" ]).

Definition generate_week_xml (week_number : Z) (week_start week_end : date)
    (meeting_dates : list date) : string :=
  Str.join nl (week_xml_lines week_number week_start week_end meeting_dates).

Definition include_line (wf : string) : string :=
  "  <xi:include href=" +:+ dq +:+ wf +:+ dq +:+ "/>".

Definition main_ptx_head : list string :=
  [ "<?xml version=" +:+ dq +:+ "1.0" +:+ dq +:+ " encoding=" +:+ dq +:+ "utf-8" +:+ dq +:+ "?>";
    "<section xml:id=" +:+ dq +:+ "schedule" +:+ dq +:+ " xmlns:xi=" +:+ dq
      +:+ "http://www.w3.org/2001/XInclude" +:+ dq +:+ ">";
    "  <title>Schedule</title>" ].

Definition main_ptx_conclusion : list string :=
  [ "";
    "  <conclusion>";
    "    <warning>";
    "      <p>";
    "        The instructor reserves the right to modify the schedule as needed.";
    "      </p>";
    "    </warning>";
    "  </conclusion>";
    "</section>" ].

Definition main_ptx_text (week_files : list string) : string :=
  Str.join nl (main_ptx_head ++ (include_line <$> week_files) ++ main_ptx_conclusion).

Definition generate_main_ptx (week_files : list string) : prog unit :=
  (write_text "main.ptx" (main_ptx_text week_files) ;;
   print "Wrote main.ptx")%prog.

Definition week_filename (week_number : Z) : string :=
  "week" +:+ format_02d week_number +:+ ".ptx".

(** Lines 179-186: the body of the [for] loop, once per week that the
    generator yields; [week_files] is the list built so far. *)
Fixpoint write_weeks (weeks : list Week) (week_files : list string)
    : prog (list string) :=
  match weeks with
  | [] => ret week_files
  | w :: rest =>
      let xml := generate_week_xml (week_number w) (week_start w)
                   (week_end w) (meeting_dates w) in
      let filename := week_filename (week_number w) in
      (write_text filename xml ;;
       print ("Wrote " +:+ filename) ;;
       write_weeks rest (week_files ++ [filename]))%prog
  end.

(** Lines 170-175. *)
Definition no_class_option (argv : list string) : result (gset date) :=
  if bool_decide ("--no-class" ∈ argv) then
    let? idx := index "--no-class" argv in
    if bool_decide (length argv ≤ idx + 1)%nat
    then inl (SystemExit_msg "--no-class requires a value")
    else let? value := item argv (idx + 1) in parse_date_list value
  else inr ∅.

(** Lines 177-189: the generator is consumed week by week; an exception
    that escapes from it ends the run after the files of the weeks
    already yielded have been written. *)
Definition write_schedule (start_date end_date : date) (meeting_days : list Z)
    (no_class_dates : gset date) : prog unit :=
  let '(weeks, fin) :=
    build_schedule start_date end_date meeting_days no_class_dates in
  (do week_files <- write_weeks weeks [];
   match fin with
   | StopIteration => generate_main_ptx week_files
   | Raised e => raise e
   | Unfinished => diverge
   end)%prog.

Definition main (argv : list string) : prog unit :=
  if bool_decide (length argv < 4)%nat then
    (print module_doc ;; raise (SystemExit_code 1))%prog
  else
    (do a1 <- lift (item argv 1);
     do start_date <- lift (parse_date a1);
     do a2 <- lift (item argv 2);
     do end_date <- lift (parse_date a2);
     if end_date <? start_date
     then raise (SystemExit_msg "end_date must be on or after start_date")
     else
       do a3 <- lift (item argv 3);
       do meeting_days <- lift (parse_meeting_days a3);
       do no_class_dates <- lift (no_class_option argv);
       write_schedule start_date end_date meeting_days no_class_dates)%prog.

End program.

(** ** The parameters on a usual platform

    [int] on numerals written in ASCII and [strftime] in the C locale of
    glibc, for the two formats the program uses. *)

Definition digit_value (c : ascii) : option Z :=
  let n := Str.code c in
  if ((48 <=? n) && (n <=? 57))%N then Some (Z.of_N n - 48) else None.

(** The digits of a numeral, single underscores allowed between them. *)
Fixpoint int_digits (l : list ascii) (acc : Z) (after_digit : bool) : option Z :=
  match l with
  | [] => if after_digit then Some acc else None
  | c :: l' =>
      match digit_value c with
      | Some v => int_digits l' (10 * acc + v) true
      | None =>
          if Ascii.eqb c "_" && after_digit then int_digits l' acc false
          else None
      end
  end.

(** The whitespace that [int] skips around a numeral: TAB..CR, SPACE, NEL
    and NBSP. *)
Definition int_space (c : ascii) : bool :=
  let n := Str.code c in
  ((9 <=? n) && (n <=? 13) || (n =? 32) || (n =? 133) || (n =? 160))%N.

Fixpoint int_lstrip (l : list ascii) : list ascii :=
  match l with
  | c :: l' => if int_space c then int_lstrip l' else l
  | [] => []
  end.

(** [int(x)]: whitespace, a sign, the digits; numerals of more than 4300
    digits are refused. *)
Definition int_ascii (x : string) : option Z :=
  let l := rev (int_lstrip (rev (int_lstrip (Str.to_list x)))) in
  if (4300 <? length (filter (fun c => is_Some (digit_value c)) l))%nat
  then None
  else
    match l with
    | c :: l' =>
        if Ascii.eqb c "-" then Z.opp <$> int_digits l' 0 false
        else if Ascii.eqb c "+" then int_digits l' 0 false
        else int_digits l 0 false
    | [] => None
    end.

(** [date.fromordinal(n)] as (year, month, day), after [_ord2ymd] of the
    [datetime] module. *)
Definition ord2ymd (ordinal : Z) : Z * Z * Z :=
  let n := ordinal - 1 in
  let n400 := n / 146097 in
  let n := n `mod` 146097 in
  let n100 := n / 36524 in
  let n := n `mod` 36524 in
  let n4 := n / 1461 in
  let n := n `mod` 1461 in
  let n1 := n / 365 in
  let n := n `mod` 365 in
  let year := n400 * 400 + 1 + n100 * 100 + n4 * 4 + n1 in
  if (n1 =? 4) || (n100 =? 4) then (year - 1, 12, 31)
  else
    let month := Z.shiftr (n + 50) 5 in
    let preceding := days_before_month year month in
    if n <? preceding
    then (year, month - 1, n - (preceding - days_in_month year (month - 1)) + 1)
    else (year, month, n - preceding + 1).

Definition month_name (m : Z) : string :=
  nth (Z.to_nat (m - 1))
    [ "January"; "February"; "March"; "April"; "May"; "June"; "July";
      "August"; "September"; "October"; "November"; "December" ] "".

Definition strftime_c (d : date) (fmt : string) : string :=
  let '(_, m, day) := ord2ymd d in
  if bool_decide (fmt = "%B %-d") then month_name m +:+ " " +:+ str_of_Z day
  else if bool_decide (fmt = "%B %d") then month_name m +:+ " " +:+ format_02d day
  else fmt.

(** ** Statements about the calendar engine *)

(** The first week that [build_schedule] yields starts on the Monday on or
    before [start_date]. *)
Definition first_week_on_monday (start_date end_date : date)
    (meeting_days : list Z) (no_class_dates : gset date) : Prop :=
  ∃ w rest,
    (build_schedule start_date end_date meeting_days no_class_dates).1 = w :: rest
    ∧ week_start w = start_date - weekday start_date
    ∧ weekday (week_start w) = 0
    ∧ week_start w ≤ start_date.

(** [build_schedule] comes to its end by itself, having yielded the
    calendar weeks that meet the range, numbered 1..K, and no week that
    starts after [end_date]. *)
Definition weeks_numbered (start_date end_date : date)
    (meeting_days : list Z) (no_class_dates : gset date) : Prop :=
  ∃ weeks,
    build_schedule start_date end_date meeting_days no_class_dates
    = (weeks, StopIteration)
    ∧ week_number <$> weeks = seqZ 1 (week_count start_date end_date)
    ∧ week_start <$> weeks = calendar_weeks start_date end_date
    ∧ Forall (fun w => week_start w ≤ end_date) weeks.

(** ** Statements about the program *)

(** The file that the [for] loop of [main] writes for a week. *)
Definition week_file (strftime : date → string → string) (w : Week)
    : string * string :=
  (week_filename (week_number w),
   generate_week_xml strftime (week_number w) (week_start w) (week_end w)
     (meeting_dates w)).

(** ** The text of the documents, as the statements spell it

    Written out character by character, apart from the generator. *)

(** A line of a document with the line feed that ends it. *)
Definition text_line (s : string) : string := s +:+ String "010" EmptyString.

(** [s] between double quotes. *)
Definition quoted (s : string) : string :=
  String "034" (s +:+ String "034" EmptyString).

(** A number from 1 on in decimal, a zero put before a single digit. *)
Definition two_digits (n : Z) : string :=
  (if n <? 10 then "0" else "")
  +:+ NilZero.string_of_uint (Pos.to_uint (Z.to_pos n)).

(** The name of the file of week [n]. *)
Definition week_name (n : Z) : string := "week" +:+ two_digits n +:+ ".ptx".

(** The document of week [n] when the week has no meeting: the list is
    opened and closed with nothing in between. *)
Definition empty_week_text (n : Z) (start_str end_str : string) : string :=
  text_line ("<?xml version=" +:+ quoted "1.0" +:+ " encoding="
             +:+ quoted "utf-8" +:+ "?>")
  +:+ text_line ("<subsection xml:id=" +:+ quoted ("week-" +:+ two_digits n)
                 +:+ ">")
  +:+ text_line ("  <title>" +:+ start_str +:+ " <ndash/> " +:+ end_str
                 +:+ "</title>")
  +:+ text_line "  <p>"
  +:+ text_line "    <dl>"
  +:+ text_line "    </dl>"
  +:+ text_line "  </p>"
  +:+ "</subsection>".

(** The line of the index that includes the file [name]. *)
Definition inclusion (name : string) : string :=
  text_line ("  <xi:include href=" +:+ quoted name +:+ "/>").

(** The end of the index: an empty line, the conclusion with the
    disclaimer, and the closing of the section. *)
Definition disclaimer : string :=
  text_line ""
  +:+ text_line "  <conclusion>"
  +:+ text_line "    <warning>"
  +:+ text_line "      <p>"
  +:+ text_line
        "        The instructor reserves the right to modify the schedule as needed."
  +:+ text_line "      </p>"
  +:+ text_line "    </warning>"
  +:+ text_line "  </conclusion>"
  +:+ "</section>".

(** The index that includes the files [names]: the opening of the titled
    section, one inclusion per name in the order of the list, and the
    disclaimer. *)
Definition index_text (names : list string) : string :=
  text_line ("<?xml version=" +:+ quoted "1.0" +:+ " encoding="
             +:+ quoted "utf-8" +:+ "?>")
  +:+ text_line ("<section xml:id=" +:+ quoted "schedule" +:+ " xmlns:xi="
                 +:+ quoted "http://www.w3.org/2001/XInclude" +:+ ">")
  +:+ text_line "  <title>Schedule</title>"
  +:+ foldr String.append disclaimer (inclusion <$> names).

(** The week that starts on the Monday [m] is yielded with no meeting, as
    the week of its place in the calendar counted from the first Monday,
    and the loop of [main] writes its file: the document of an empty week,
    titled with the Monday and the Sunday as [strftime] prints them. *)
Definition empty_week_documented (strftime : date → string → string)
    (start_date end_date : date) (meeting_days : list Z)
    (no_class_dates : gset date) (m : date) : Prop :=
  ∃ n,
    mkWeek n m (m + 6) []
      ∈ (build_schedule start_date end_date meeting_days no_class_dates).1
    ∧ n = (m - (start_date - weekday start_date)) / 7 + 1
    ∧ ∀ w, (week_name n,
            empty_week_text n (strftime m "%B %-d") (strftime (m + 6) "%B %-d"))
           ∈ files (write_schedule strftime start_date end_date
                      meeting_days no_class_dates w).2.

(** The run ends with the missing-value error. *)
Definition missing_value_error (int : string → option Z)
    (strftime : date → string → string) (argv : list string) : Prop :=
  ∀ w, (main int strftime argv w).1
       = Raises (SystemExit_msg "--no-class requires a value").

(** ** Statements about exclusions *)

(** A week without the meetings that fall on the dates of [excluded]. *)
Definition without_dates (excluded : gset date) (w : Week) : Week :=
  mkWeek (week_number w) (week_start w) (week_end w)
    (filter (fun d => d ∉ excluded) (meeting_dates w)).

(** ** Statements about what a run writes *)

(** The confirmation line of a file written. *)
Definition wrote_line (file : string * string) : string :=
  "Wrote " +:+ file.1.

(** What a run that got past the count of the tokens leaves behind: the
    files of some weeks numbered from 1 and then main.ptx, with a line of
    output for each, when it returns; the files of the weeks yielded before
    the exception, with their lines, when it raises. *)
Definition run_writes (strftime : date → string → string) (w : world)
    (r : outcome unit * world) : Prop :=
  ∃ weeks : list Week,
    week_number <$> weeks = seqZ 1 (Z.of_nat (length weeks))
    ∧ (r = (Returns tt,
            mkWorld
              (files w ++ (week_file strftime <$> weeks)
               ++ [("main.ptx",
                    main_ptx_text (week_filename ∘ week_number <$> weeks))])
              (stdout w
               ++ (wrote_line <$> (week_file strftime <$> weeks))
               ++ ["Wrote main.ptx"]))
       ∨ ∃ e,
           r = (Raises e,
                mkWorld (files w ++ (week_file strftime <$> weeks))
                  (stdout w ++ (wrote_line <$> (week_file strftime <$> weeks))))
           ∧ (e ≠ OverflowError → weeks = [])
           ∧ e ≠ IndexError ∧ e ≠ ValueError Not_in_list
           ∧ ∀ status, e ≠ SystemExit_code status).

(** * Properties *)

(** ** Examples *)

Example parse_names : parse_meeting_days " Thu,  mon,Thursday " = inr [0; 3].
Proof. vm_compute. reflexivity. Qed.

Example parse_unknown :
  parse_meeting_days "Mon Xyz" = inl (ValueError (Unknown_day_token "Xyz")).
Proof. vm_compute. reflexivity. Qed.

Example parse_date_march_12 : parse_date int_ascii "3/12/2026" = inr 739687.
Proof. vm_compute. reflexivity. Qed.

Example march_12_is_thursday : weekday 739687 = 3.
Proof. reflexivity. Qed.

Example date_max : parse_date int_ascii "12/31/9999" = inr MAXORDINAL.
Proof. vm_compute. reflexivity. Qed.

Example date_min_is_monday : parse_date int_ascii "1/1/1" = inr 1 ∧ weekday 1 = 0.
Proof. split; vm_compute; reflexivity. Qed.

Example ord2ymd_march_12 : ord2ymd 739687 = (2026, 3, 12).
Proof. vm_compute. reflexivity. Qed.

Example title_march_9 :
  format_date_for_title strftime_c 739684 = "March 9"
  ∧ format_date_for_meeting_title strftime_c 739684 = "March 09".
Proof. split; vm_compute; reflexivity. Qed.

(** 2026-03-12 is ordinal 739687, 2026-03-25 is 739700 and 2026-03-18 is
    739693. *)
Example schedule_march_2026 :
  build_schedule 739687 739700 [0; 2] {[ 739693 ]}
  = ([ mkWeek 1 739684 739690 [];
       mkWeek 2 739691 739697 [739691];
       mkWeek 3 739698 739704 [739698; 739700] ], StopIteration).
Proof. vm_compute. reflexivity. Qed.

Example schedule_last_week_of_9999 :
  build_schedule MAXORDINAL MAXORDINAL [0] ∅ = ([], Raised OverflowError).
Proof. vm_compute. reflexivity. Qed.

(** ** Date arithmetic *)

Lemma weekday_range d : 0 ≤ weekday d ≤ 6.
Proof. unfold weekday. Z.div_mod_to_equations. lia. Qed.

Lemma weekday_add_7 d k : weekday (d + 7 * k) = weekday d.
Proof.
  unfold weekday. replace (d + 7 * k + 6) with (d + 6 + k * 7) by lia.
  apply Z_mod_plus_full.
Qed.

Lemma weekday_monday d : weekday (d - weekday d) = 0.
Proof. unfold weekday. Z.div_mod_to_equations. lia. Qed.

Lemma monday_is_date d : is_date d → is_date (d - weekday d).
Proof. unfold is_date, weekday, MAXORDINAL. Z.div_mod_to_equations. lia. Qed.

Lemma date_add_ok d n : is_date (d + n) → date_add d n = inr (d + n).
Proof.
  unfold is_date, date_add. intros [H1 H2].
  apply Z.leb_le in H1, H2. by rewrite H1, H2.
Qed.

Lemma date_add_inr d n d' :
  date_add d n = inr d' → d' = d + n ∧ is_date (d + n).
Proof.
  unfold is_date, date_add.
  destruct (1 <=? d + n) eqn:H1; destruct (d + n <=? MAXORDINAL) eqn:H2;
    simpl; intros [=<-].
  apply Z.leb_le in H1, H2. auto.
Qed.

Lemma date_add_inl d n e :
  date_add d n = inl e → e = OverflowError ∧ ¬ is_date (d + n).
Proof.
  unfold is_date, date_add.
  destruct (1 <=? d + n) eqn:H1; destruct (d + n <=? MAXORDINAL) eqn:H2;
    simpl; intros [=<-]; split; try done;
    try apply Z.leb_gt in H1; try apply Z.leb_gt in H2; lia.
Qed.

(** ** The dates that the program works with *)

Lemma days_before_month_bound y m :
  1 ≤ m ≤ 12 →
  0 ≤ days_before_month y m
  ∧ days_before_month y m + days_in_month y m
    ≤ (if is_leap y then 366 else 365).
Proof.
  intros Hm.
  assert (m = 1 ∨ m = 2 ∨ m = 3 ∨ m = 4 ∨ m = 5 ∨ m = 6 ∨ m = 7 ∨ m = 8
          ∨ m = 9 ∨ m = 10 ∨ m = 11 ∨ m = 12) as Hcases by lia.
  repeat (destruct Hcases as [->|Hcases]);
    try subst m; unfold days_before_month, seqZ, days_in_month; simpl;
    destruct (is_leap y); lia.
Qed.

Lemma days_before_year_bound y :
  1 ≤ y ≤ 9999 →
  0 ≤ days_before_year y
  ∧ days_before_year y + (if is_leap y then 366 else 365) ≤ MAXORDINAL.
Proof.
  intros Hy. destruct (decide (y = 9999)) as [->|Hne]; [by vm_compute|].
  unfold days_before_year, MAXORDINAL.
  destruct (is_leap y); Z.div_mod_to_equations; lia.
Qed.

(** [date(y, m, d)] is a date of the calendar when it does not raise. *)
Lemma mkdate_is_date y m d o : mkdate y m d = inr o → is_date o.
Proof.
  unfold mkdate. destruct (negb _); [done|].
  destruct ((1 <=? y) && _ && _ && _ && _ && _) eqn:Hok; [|done].
  intros [=<-].
  repeat (apply andb_prop in Hok as [Hok ?]).
  repeat match goal with H : (_ <=? _) = true |- _ => apply Z.leb_le in H end.
  pose proof (days_before_year_bound y) as Hy.
  pose proof (days_before_month_bound y m) as Hm.
  unfold is_date, ymd2ord. lia.
Qed.

Lemma parse_date_is_date int dstr d :
  parse_date int dstr = inr d → is_date d.
Proof.
  unfold parse_date.
  destruct (Str.split_on "/" (Str.strip dstr)) as [|a [|b [|c [|x rest]]]];
    try done.
  - by destruct (to_int int a).
  - destruct (to_int int a); [done|]. by destruct (to_int int b).
  - destruct (to_int int a) as [|m]; [done|].
    destruct (to_int int b) as [|day]; [done|].
    destruct (to_int int c) as [|y]; [done|].
    apply mkdate_is_date.
  - destruct (to_int int a); [done|]. destruct (to_int int b); [done|].
    destruct (to_int int c); [done|]. by destruct (to_int int x).
Qed.

(** ** The meetings of one week *)

Section week_meetings.
Variables (start_date end_date : date) (no_class_dates : gset date).

Local Abbreviation is_meeting := (is_meeting start_date end_date no_class_dates).
Local Abbreviation week_meetings := (week_meetings start_date end_date no_class_dates).

Lemma is_meeting_spec d :
  is_meeting d ↔ start_date ≤ d ≤ end_date ∧ d ∉ no_class_dates.
Proof.
  unfold is_meeting.
  rewrite !andb_True, negb_True, bool_decide_spec, !Is_true_true, !Z.leb_le.
  tauto.
Qed.

(** On success the loop returns the candidates that pass the test, in
    the order of the weekday list, after what it started with. *)
Lemma week_meetings_inr ws days acc ms :
  week_meetings ws days acc = inr ms →
  ms = acc ++ filter (fun d => is_meeting d) (Z.add ws <$> days)
  ∧ Forall (fun wd => is_date (ws + wd)) days.
Proof.
  revert acc ms. induction days as [|wd days IH]; intros acc ms; csimpl.
  - intros [=<-]. by rewrite app_nil_r.
  - destruct (date_add ws wd) as [e|d] eqn:Hd; csimpl; [done|].
    apply date_add_inr in Hd as [-> Hd]. intros H.
    apply IH in H as [-> Hall]. split; [|by constructor].
    destruct (is_meeting (ws + wd)) eqn:Hm.
    + rewrite filter_cons_True by (by apply Is_true_true). by rewrite <-app_assoc.
    + rewrite filter_cons_False by (intros ?%Is_true_true; congruence). done.
Qed.

Lemma week_meetings_ok ws days acc :
  Forall (fun wd => is_date (ws + wd)) days →
  week_meetings ws days acc
  = inr (acc ++ filter (fun d => is_meeting d) (Z.add ws <$> days)).
Proof.
  revert acc. induction days as [|wd days IH]; intros acc Hall; csimpl.
  - by rewrite app_nil_r.
  - inversion_clear Hall as [|?? Hd Hall'].
    rewrite (date_add_ok _ _ Hd). csimpl. rewrite (IH _ Hall').
    destruct (is_meeting (ws + wd)) eqn:Hm.
    + rewrite filter_cons_True by (by apply Is_true_true). by rewrite <-app_assoc.
    + rewrite filter_cons_False by (intros ?%Is_true_true; congruence). done.
Qed.

Lemma week_meetings_weekdays ws days :
  is_date ws → is_date (ws + 6) → Forall (fun wd => 0 ≤ wd ≤ 6) days →
  week_meetings ws days []
  = inr (filter (fun d => is_meeting d) (Z.add ws <$> days)).
Proof.
  intros Hws Hwe Hdays. apply (week_meetings_ok ws days []).
  eapply Forall_impl; [exact Hdays|].
  unfold is_date in *. simpl. intros. lia.
Qed.

End week_meetings.

Lemma StronglySorted_filter {A} (R : relation A) (P : A → Prop)
    `{∀ x, Decision (P x)} (l : list A) :
  StronglySorted R l → StronglySorted R (filter P l).
Proof.
  induction 1 as [|x l Hl IH Hx]; [constructor|].
  rewrite filter_cons. destruct (decide (P x)); [|done].
  constructor; [done|].
  apply Forall_forall. intros y Hy%list_elem_of_filter.
  rewrite Forall_forall in Hx. apply Hx, Hy.
Qed.

(** ** The loop of build_schedule *)

Section schedule_loop.
Variables (start_date end_date : date).
Variable meeting_days : list Z.
Variable no_class_dates : gset date.
Variable first_monday : date.

Local Abbreviation loop :=
  (schedule_loop start_date end_date meeting_days no_class_dates).
Local Abbreviation meetings_of ws :=
  (filter (fun d => is_meeting start_date end_date no_class_dates d)
     (Z.add ws <$> meeting_days)).

(** One turn of the loop that yields. *)
Lemma schedule_loop_step fuel idx :
  let ws := first_monday + 7 * idx in
  is_date ws → is_date (ws + 6) → ws ≤ end_date →
  Forall (fun wd => 0 ≤ wd ≤ 6) meeting_days →
  loop (S fuel) first_monday idx
  = (mkWeek (idx + 1) ws (ws + 6) (meetings_of ws)
       :: (loop fuel first_monday (idx + 1)).1,
     (loop fuel first_monday (idx + 1)).2).
Proof.
  intros ws Hws Hwe Hle Hdays. simpl.
  rewrite (date_add_ok _ _ Hws). fold ws.
  rewrite (date_add_ok _ _ Hwe).
  destruct (end_date <? ws) eqn:Hlt; [apply Z.ltb_lt in Hlt; lia|].
  rewrite (week_meetings_weekdays _ _ _ _ _ Hws Hwe Hdays).
  by destruct (loop fuel first_monday (idx + 1)).
Qed.

(** The turn of the loop that leaves through [break]. *)
Lemma schedule_loop_break fuel idx :
  let ws := first_monday + 7 * idx in
  is_date ws → is_date (ws + 6) → end_date < ws →
  loop (S fuel) first_monday idx = ([], StopIteration).
Proof.
  intros ws Hws Hwe Hlt. simpl.
  rewrite (date_add_ok _ _ Hws). fold ws.
  rewrite (date_add_ok _ _ Hwe).
  apply Z.ltb_lt in Hlt. by rewrite Hlt.
Qed.

(** Every week that is yielded, by its position. *)
Lemma schedule_loop_lookup fuel idx i w :
  (loop fuel first_monday idx).1 !! i = Some w →
  week_number w = idx + Z.of_nat i + 1
  ∧ week_start w = first_monday + 7 * (idx + Z.of_nat i)
  ∧ week_end w = week_start w + 6
  ∧ is_date (week_start w) ∧ is_date (week_end w)
  ∧ week_start w ≤ end_date
  ∧ week_meetings start_date end_date no_class_dates
      (week_start w) meeting_days [] = inr (meeting_dates w).
Proof.
  revert idx i w. induction fuel as [|fuel IH]; intros idx i w; simpl; [done|].
  destruct (date_add first_monday (7 * idx)) as [e|ws] eqn:Hws; [done|].
  destruct (date_add ws 6) as [e|we] eqn:Hwe; [done|].
  destruct (end_date <? ws) eqn:Hlt; [done|].
  destruct (week_meetings _ _ _ ws meeting_days []) as [e|ms] eqn:Hms; [done|].
  specialize (IH (idx + 1)).
  destruct (loop fuel first_monday (idx + 1)) as [weeks fin]. simpl in *.
  apply date_add_inr in Hws as [-> Hws].
  apply date_add_inr in Hwe as [-> Hwe].
  apply Z.ltb_ge in Hlt.
  destruct i as [|i]; simpl.
  - intros [=<-]. simpl. unfold is_date in *. repeat split; try done; lia.
  - intros Hw. apply IH in Hw.
    replace (idx + Z.of_nat (S i)) with (idx + 1 + Z.of_nat i) by lia.
    exact Hw.
Qed.

(** The budget is never the reason the loop ends. *)
Lemma schedule_loop_finishes fuel idx :
  (0 < fuel)%nat →
  end_date - (first_monday + 7 * idx) < 7 * (Z.of_nat fuel - 1) →
  (loop fuel first_monday idx).2 ≠ Unfinished.
Proof.
  revert idx. induction fuel as [|fuel IH]; intros idx Hpos Hfuel; [lia|].
  simpl.
  destruct (date_add first_monday (7 * idx)) as [e|ws] eqn:Hws; [done|].
  destruct (date_add ws 6) as [e|we] eqn:Hwe; [done|].
  destruct (end_date <? ws) eqn:Hlt; [done|].
  destruct (week_meetings _ _ _ ws meeting_days []) as [e|ms] eqn:Hms; [done|].
  apply date_add_inr in Hws as [-> Hws]. apply Z.ltb_ge in Hlt.
  specialize (IH (idx + 1)).
  destruct (loop fuel first_monday (idx + 1)) as [weeks fin]. simpl in *.
  apply IH; lia.
Qed.

(** The week at position [j] is yielded as soon as it starts on or
    before [end_date] and its Sunday is a date. *)
Lemma schedule_loop_yields (j : nat) fuel idx :
  (0 < fuel)%nat →
  end_date - (first_monday + 7 * idx) < 7 * (Z.of_nat fuel - 1) →
  is_date (first_monday + 7 * idx) →
  first_monday + 7 * (idx + Z.of_nat j) ≤ end_date →
  first_monday + 7 * (idx + Z.of_nat j) + 6 ≤ MAXORDINAL →
  Forall (fun wd => 0 ≤ wd ≤ 6) meeting_days →
  is_Some ((loop fuel first_monday idx).1 !! j).
Proof.
  revert fuel idx.
  induction j as [|j IH]; intros [|fuel] idx Hpos Hfuel Hws Hle Hmax Hdays;
    try lia.
  - rewrite schedule_loop_step; unfold is_date in *; eauto with lia.
  - rewrite schedule_loop_step; unfold is_date in *; try done; try lia.
    simpl. apply IH; unfold is_date; try done; lia.
Qed.

(** Without overflow the loop yields [n] weeks and leaves through
    [break], [n] being the number of week starts up to [end_date]. *)
Lemma schedule_loop_complete (n : nat) fuel idx :
  (n < fuel)%nat →
  is_date (first_monday + 7 * idx) →
  first_monday + 7 * (idx + Z.of_nat n) + 6 ≤ MAXORDINAL →
  first_monday + 7 * (idx + Z.of_nat n) - 7 ≤ end_date →
  end_date < first_monday + 7 * (idx + Z.of_nat n) →
  Forall (fun wd => 0 ≤ wd ≤ 6) meeting_days →
  (loop fuel first_monday idx).2 = StopIteration
  ∧ length (loop fuel first_monday idx).1 = n.
Proof.
  revert fuel idx.
  induction n as [|n IH]; intros [|fuel] idx Hfuel Hws Hmax Hle Hgt Hdays;
    try lia.
  - rewrite schedule_loop_break; unfold is_date in *; try done; lia.
  - rewrite schedule_loop_step; unfold is_date in *; try done; try lia.
    simpl. destruct (IH fuel (idx + 1)) as [-> ->];
      unfold is_date; try done; lia.
Qed.

End schedule_loop.

(** ** build_schedule *)

Section build_schedule_facts.
Variables (start_date end_date : date).
Variable meeting_days : list Z.
Variable no_class_dates : gset date.

Local Abbreviation schedule :=
  (build_schedule start_date end_date meeting_days no_class_dates).
Local Abbreviation first_monday := (start_date - weekday start_date).

Lemma build_schedule_unfold :
  is_date start_date →
  schedule
  = schedule_loop start_date end_date meeting_days no_class_dates
      (Z.to_nat (end_date - first_monday) + 2) first_monday 0.
Proof.
  intros Hs. unfold build_schedule.
  replace (start_date - weekday start_date)
    with (start_date + - weekday start_date) by lia.
  rewrite date_add_ok; [done|].
  replace (start_date + - weekday start_date)
    with (start_date - weekday start_date) by lia.
  by apply monday_is_date.
Qed.

(** The generator always comes to an end: through [break] or through an
    exception. *)
Lemma build_schedule_finishes : schedule.2 ≠ Unfinished.
Proof.
  unfold build_schedule.
  destruct (date_add start_date (- weekday start_date)) as [e|fm]; [done|].
  apply schedule_loop_finishes; lia.
Qed.

(** Every week that is yielded, by its position. *)
Lemma build_schedule_lookup i w :
  schedule.1 !! i = Some w →
  week_number w = Z.of_nat i + 1
  ∧ week_start w = first_monday + 7 * Z.of_nat i
  ∧ week_end w = week_start w + 6
  ∧ is_date (week_start w) ∧ is_date (week_end w)
  ∧ week_start w ≤ end_date
  ∧ week_meetings start_date end_date no_class_dates
      (week_start w) meeting_days [] = inr (meeting_dates w).
Proof.
  unfold build_schedule.
  destruct (date_add start_date (- weekday start_date)) as [e|fm] eqn:Hfm;
    [done|].
  apply date_add_inr in Hfm as [-> _]. intros Hw.
  apply schedule_loop_lookup in Hw.
  replace (start_date - weekday start_date)
    with (start_date + - weekday start_date) by lia.
  exact Hw.
Qed.

(** No week that starts after [end_date] is ever yielded. *)
Lemma build_schedule_within_range :
  Forall (fun w => week_start w ≤ end_date) schedule.1.
Proof.
  apply Forall_forall. intros w [i Hw]%list_elem_of_lookup.
  apply build_schedule_lookup in Hw. tauto.
Qed.

(** The meetings of a yielded week are the candidates that pass the
    test, whatever the weekday list. *)
Lemma build_schedule_meetings w :
  w ∈ schedule.1 →
  meeting_dates w
  = filter (fun d => is_meeting start_date end_date no_class_dates d)
      (Z.add (week_start w) <$> meeting_days).
Proof.
  intros [i Hw]%list_elem_of_lookup.
  apply build_schedule_lookup in Hw as (_ & _ & _ & _ & _ & _ & Hms).
  by apply week_meetings_inr in Hms as [-> _].
Qed.

End build_schedule_facts.

(** C2. For every week yielded by build_schedule on a meeting-day pattern,
    the meeting dates are strictly increasing, and each of them lies in
    [start_date .. end_date] and outside the exclusion set. *)
Theorem meeting_dates_increasing_in_range
    (start_date end_date : date) (meeting_days : list Z)
    (no_class_dates : gset date) (w : Week) :
  MeetingDayPattern meeting_days →
  w ∈ (build_schedule start_date end_date meeting_days no_class_dates).1 →
  StronglySorted Z.lt (meeting_dates w)
  ∧ Forall (fun d => start_date ≤ d ≤ end_date ∧ d ∉ no_class_dates)
      (meeting_dates w).
Proof.
  intros [Hsorted _] Hw. rewrite (build_schedule_meetings _ _ _ _ _ Hw). split.
  - apply StronglySorted_filter.
    apply (StronglySorted_fmap _ Z.lt Z.lt); [|done]. intros; lia.
  - apply Forall_forall. intros d [Hd _]%list_elem_of_filter.
    by apply is_meeting_spec.
Qed.

Lemma meeting_dates_increasing_in_range_witness :
  MeetingDayPattern [0; 2]
  ∧ mkWeek 3 739698 739704 [739698; 739700]
    ∈ (build_schedule 739687 739700 [0; 2] {[ 739693 ]}).1
  ∧ StronglySorted Z.lt [739698; 739700]
  ∧ Forall (fun d => 739687 ≤ d ≤ 739700 ∧ d ∉ ({[ 739693 ]} : gset date))
      [739698; 739700].
Proof.
  assert (Hp : MeetingDayPattern [0; 2]).
  { split; repeat constructor; lia. }
  assert (Hw : mkWeek 3 739698 739704 [739698; 739700]
               ∈ (build_schedule 739687 739700 [0; 2] {[ 739693 ]}).1).
  { rewrite schedule_march_2026. simpl. set_solver. }
  split; [exact Hp|]. split; [exact Hw|].
  exact (meeting_dates_increasing_in_range _ _ _ _ _ Hp Hw).
Defined.

(** ** The calendar weeks that meet the range *)

Lemma elem_of_calendar_weeks start_date end_date m :
  m ∈ calendar_weeks start_date end_date
  ↔ weekday m = 0 ∧ m ≤ end_date ∧ start_date ≤ m + 6.
Proof.
  unfold calendar_weeks. rewrite list_elem_of_filter, elem_of_seqZ. lia.
Qed.

Lemma StronglySorted_seqZ m n : StronglySorted Z.lt (seqZ m n).
Proof.
  destruct (decide (n ≤ 0)) as [Hn|Hn]; [rewrite seqZ_nil by done; constructor|].
  replace n with (Z.of_nat (Z.to_nat n)) by lia.
  generalize (Z.to_nat n) as k. clear. intros k. revert m.
  induction k as [|k IH]; intros m; [rewrite seqZ_nil by done; constructor|].
  rewrite seqZ_cons by lia.
  replace (Z.pred (Z.of_nat (S k))) with (Z.of_nat k) by lia.
  constructor; [apply IH|].
  apply Forall_forall. intros x Hx%elem_of_seqZ. lia.
Qed.

(** A list read through [f] is [g] of the positions when it is so at each
    position. *)
Lemma fmap_by_position {A} (f : A → Z) (g : Z → Z) (l : list A) :
  (∀ i a, l !! i = Some a → f a = g (Z.of_nat i)) →
  f <$> l = g <$> seqZ 0 (Z.of_nat (length l)).
Proof.
  intros Hpos. apply list_eq. intros i. rewrite !list_lookup_fmap.
  destruct (l !! i) as [a|] eqn:Ha; simpl.
  - rewrite lookup_seqZ_lt by (apply lookup_lt_Some in Ha; lia).
    simpl. by rewrite (Hpos i a Ha).
  - rewrite lookup_seqZ_ge by (apply lookup_ge_None in Ha; lia). done.
Qed.

(** The Mondays that meet the range are the first Monday and the [n - 1]
    that follow it, [n] counting the weeks up to that of [end_date]. *)
Lemma calendar_weeks_from_first_monday start_date end_date :
  start_date ≤ end_date →
  let first_monday := start_date - weekday start_date in
  calendar_weeks start_date end_date
  = (fun k => first_monday + 7 * k)
      <$> seqZ 0 ((end_date - first_monday) / 7 + 1).
Proof.
  intros Hle fm.
  apply (StronglySorted_unique_strong Z.lt).
  - intros; lia.
  - apply StronglySorted_filter, StronglySorted_seqZ.
  - apply (StronglySorted_fmap _ Z.lt Z.lt); [intros; lia|].
    apply StronglySorted_seqZ.
  - apply NoDup_Permutation.
    + apply NoDup_filter, NoDup_seqZ.
    + apply NoDup_fmap_2_strong; [intros; lia|apply NoDup_seqZ].
    + intros m. rewrite elem_of_calendar_weeks, list_elem_of_fmap.
      setoid_rewrite elem_of_seqZ. split.
      * intros (Hm & Hme & Hms). exists ((m - fm) / 7).
        subst fm. unfold weekday in *. Z.div_mod_to_equations. lia.
      * intros (k & -> & Hk). subst fm. rewrite weekday_add_7, weekday_monday.
        pose proof (weekday_range start_date).
        unfold weekday in *. Z.div_mod_to_equations. lia.
Qed.

(** C1, as amended. For every pair of dates with start_date <= end_date
    whose first week ends on a date (the Monday on or before start_date,
    plus six days, is at most date.max), and every meeting-day pattern, the
    first week yielded by build_schedule starts on a Monday, on or before
    start_date, namely on start_date minus its weekday number. *)
Theorem first_week_starts_on_monday
    (start_date end_date : date) (meeting_days : list Z)
    (no_class_dates : gset date) :
  is_date start_date → is_date end_date → start_date ≤ end_date →
  MeetingDayPattern meeting_days →
  start_date - weekday start_date + 6 ≤ MAXORDINAL →
  first_week_on_monday start_date end_date meeting_days no_class_dates.
Proof.
  intros Hs He Hle [_ Hdays] Hmax. unfold first_week_on_monday.
  pose proof (weekday_range start_date) as Hwd.
  pose proof (monday_is_date _ Hs) as Hfm.
  rewrite build_schedule_unfold by done.
  replace (Z.to_nat (end_date - (start_date - weekday start_date)) + 2)%nat
    with (S (Z.to_nat (end_date - (start_date - weekday start_date)) + 1))
    by lia.
  rewrite schedule_loop_step; unfold is_date in *; try done; try lia.
  eexists _, _. split; [reflexivity|]. simpl.
  rewrite Z.mul_0_r, Z.add_0_r.
  split; [done|]. split; [apply weekday_monday|lia].
Qed.

Lemma first_week_starts_on_monday_witness :
  first_week_on_monday 739687 739700 [0; 2] {[ 739693 ]}.
Proof.
  apply first_week_starts_on_monday.
  - unfold is_date, MAXORDINAL. lia.
  - unfold is_date, MAXORDINAL. lia.
  - lia.
  - split; repeat constructor; lia.
  - vm_compute. discriminate.
Defined.

(** C1, as stated, fails on the last day of the calendar: the week of
    9999-12-31 would end in the year 10000, and no week is yielded. *)
Lemma first_week_missing_at_date_max :
  is_date MAXORDINAL ∧ MAXORDINAL ≤ MAXORDINAL
  ∧ build_schedule MAXORDINAL MAXORDINAL [0] ∅ = ([], Raised OverflowError)
  ∧ ¬ first_week_on_monday MAXORDINAL MAXORDINAL [0] ∅.
Proof.
  split; [unfold is_date, MAXORDINAL; lia|]. split; [lia|].
  split; [vm_compute; reflexivity|].
  unfold first_week_on_monday. rewrite schedule_last_week_of_9999.
  intros (w & rest & Hnil & _). discriminate Hnil.
Qed.

(** Without overflow the generator yields one week per Monday from the
    first one up to [end_date], and comes to its end by itself. *)
Lemma build_schedule_complete
    (start_date end_date : date) (meeting_days : list Z)
    (no_class_dates : gset date) :
  is_date start_date → is_date end_date → start_date ≤ end_date →
  Forall (fun wd => 0 ≤ wd ≤ 6) meeting_days →
  end_date - weekday end_date + 13 ≤ MAXORDINAL →
  let schedule :=
    build_schedule start_date end_date meeting_days no_class_dates in
  schedule.2 = StopIteration
  ∧ Z.of_nat (length schedule.1)
    = (end_date - (start_date - weekday start_date)) / 7 + 1.
Proof.
  intros Hs He Hle Hdays Hmax. cbn zeta.
  rewrite build_schedule_unfold by done.
  set (fm := start_date - weekday start_date).
  set (n := Z.to_nat ((end_date - fm) / 7 + 1)).
  assert (Hfm : is_date fm) by by apply monday_is_date.
  assert (Hn : Z.of_nat n = (end_date - fm) / 7 + 1).
  { subst n fm. pose proof (weekday_range start_date).
    unfold weekday in *. Z.div_mod_to_equations. lia. }
  rewrite <-Hn.
  destruct (schedule_loop_complete start_date end_date meeting_days
              no_class_dates fm n
              (Z.to_nat (end_date - fm) + 2) 0) as [Hfin Hlen]; try done.
  - subst n fm. pose proof (weekday_range start_date).
    unfold weekday in *. Z.div_mod_to_equations. lia.
  - by rewrite Z.mul_0_r, Z.add_0_r.
  - rewrite Hn. subst fm. unfold weekday, is_date in *.
    Z.div_mod_to_equations. lia.
  - rewrite Hn. subst fm. unfold weekday, is_date in *.
    Z.div_mod_to_equations. lia.
  - rewrite Hn. subst fm. unfold weekday, is_date in *.
    Z.div_mod_to_equations. lia.
  - by rewrite Hlen.
Qed.

(** C3, as amended. For every start_date <= end_date such that the week
    after the one of end_date still ends on a date (end_date is at most
    9999-12-19), and every meeting-day pattern, build_schedule comes to its
    end by itself after a finite sequence of weeks numbered exactly 1..K in
    ascending order, K being the number of Monday-to-Sunday weeks that meet
    [start_date .. end_date]; the weeks are those calendar weeks, and none
    starts after end_date. *)
Theorem week_numbers_one_to_K
    (start_date end_date : date) (meeting_days : list Z)
    (no_class_dates : gset date) :
  is_date start_date → is_date end_date → start_date ≤ end_date →
  MeetingDayPattern meeting_days →
  end_date - weekday end_date + 13 ≤ MAXORDINAL →
  weeks_numbered start_date end_date meeting_days no_class_dates.
Proof.
  intros Hs He Hle [_ Hdays] Hmax. unfold weeks_numbered.
  pose proof (build_schedule_within_range
                start_date end_date meeting_days no_class_dates) as Hrange.
  pose proof (build_schedule_lookup
                start_date end_date meeting_days no_class_dates) as Hlookup.
  destruct (build_schedule_complete start_date end_date meeting_days
              no_class_dates) as [Hfin Hlen]; try done.
  destruct (build_schedule _ _ _ _) as [weeks fin]. simpl in *.
  subst fin. exists weeks. split; [done|].
  assert (Hstarts : week_start <$> weeks = calendar_weeks start_date end_date).
  { rewrite (fmap_by_position _
               (fun k => start_date - weekday start_date + 7 * k)).
    - rewrite calendar_weeks_from_first_monday by done. by rewrite Hlen.
    - intros i w Hw. apply Hlookup in Hw. tauto. }
  split; [|done].
  rewrite (fmap_by_position _ (Z.add 1)).
  - rewrite fmap_add_seqZ. unfold week_count.
    rewrite <-Hstarts, length_fmap. done.
  - intros i w Hw. apply Hlookup in Hw. lia.
Qed.

Lemma week_numbers_one_to_K_witness :
  weeks_numbered 739687 739700 [0; 2] {[ 739693 ]}.
Proof.
  apply week_numbers_one_to_K.
  - unfold is_date, MAXORDINAL. lia.
  - unfold is_date, MAXORDINAL. lia.
  - lia.
  - split; repeat constructor; lia.
  - vm_compute. discriminate.
Defined.

(** C3, as stated, fails from 9999-12-20 on. For the single day
    9999-12-20, a Monday, one calendar week meets the range and it is
    yielded, but the loop then ends with OverflowError where the claim has
    it terminate: the end of the following week is computed before the
    test of week_start against end_date. *)
Lemma week_numbers_fail_at_9999_12_20 :
  is_date 3652048 ∧ 3652048 ≤ 3652048
  ∧ week_count 3652048 3652048 = 1
  ∧ build_schedule 3652048 3652048 [0] ∅
    = ([mkWeek 1 3652048 3652054 [3652048]], Raised OverflowError)
  ∧ ¬ weeks_numbered 3652048 3652048 [0] ∅.
Proof.
  assert (Hrun : build_schedule 3652048 3652048 [0] ∅
                 = ([mkWeek 1 3652048 3652054 [3652048]], Raised OverflowError))
    by (vm_compute; reflexivity).
  split; [unfold is_date, MAXORDINAL; lia|]. split; [lia|].
  split; [vm_compute; reflexivity|]. split; [exact Hrun|].
  unfold weeks_numbered. rewrite Hrun.
  intros (weeks & Heq & _). discriminate Heq.
Qed.

(** ** The day-name table *)

Lemma DAY_NAME_MAP_items key wd :
  DAY_NAME_MAP !! key = Some wd → (key, wd) ∈ DAY_NAME_ITEMS.
Proof. apply elem_of_list_to_map_2. Qed.

Lemma DAY_NAME_MAP_weekday key wd :
  DAY_NAME_MAP !! key = Some wd → 0 ≤ wd ≤ 6.
Proof.
  intros H%DAY_NAME_MAP_items. unfold DAY_NAME_ITEMS in H.
  repeat (apply elem_of_cons in H as [[= -> ->]|H]; [lia|]).
  by apply elem_of_nil in H.
Qed.

(** ** parse_meeting_days *)

(** What the loop over the tokens keeps: no weekday twice, and weekday
    numbers only. *)
Lemma collect_weekdays_inr tokens acc days :
  collect_weekdays tokens acc = inr days →
  NoDup acc → Forall (fun wd => 0 ≤ wd ≤ 6) acc →
  NoDup days ∧ Forall (fun wd => 0 ≤ wd ≤ 6) days.
Proof.
  revert acc. induction tokens as [|tok tokens IH]; intros acc;
    cbn [collect_weekdays].
  - intros [=<-]. done.
  - destruct (DAY_NAME_MAP !! Str.lower tok) as [wd|] eqn:Hwd; [|done].
    intros Hrest Hnodup Hrange. apply (IH _ Hrest).
    + case_bool_decide as Hin; [done|].
      apply NoDup_app. split; [done|]. split; [|apply NoDup_singleton].
      intros x Hx ->%list_elem_of_singleton. done.
    + case_bool_decide; [done|].
      apply Forall_app. split; [done|]. constructor; [|done].
      by eapply DAY_NAME_MAP_weekday.
Qed.

(** The loop stops at the first token that is not in the table. *)
Lemma collect_weekdays_unknown tokens acc tok :
  tok ∈ tokens → DAY_NAME_MAP !! Str.lower tok = None →
  ∃ bad, collect_weekdays tokens acc = inl (ValueError (Unknown_day_token bad)).
Proof.
  revert acc. induction tokens as [|t tokens IH]; intros acc Hin Hnone.
  - by apply elem_of_nil in Hin.
  - cbn [collect_weekdays].
    destruct (DAY_NAME_MAP !! Str.lower t) as [wd|] eqn:Hwd; [|by eexists].
    apply elem_of_cons in Hin as [->|Hin]; [congruence|]. by apply IH.
Qed.

Lemma StronglySorted_le_lt (l : list Z) :
  Sorted Z.le l → NoDup l → StronglySorted Z.lt l.
Proof.
  intros Hs%Sorted_StronglySorted Hnd; [|apply _].
  induction Hs as [|x l Hs IH Hx]; [constructor|].
  apply NoDup_cons in Hnd as [Hnotin Hnd].
  constructor; [by apply IH|].
  apply Forall_forall. intros y Hy.
  rewrite Forall_forall in Hx. specialize (Hx y Hy).
  assert (x ≠ y) by (intros ->; done). lia.
Qed.

Lemma sort_sorted l : Sorted Z.le (sort l).
Proof. apply (Sorted_merge_sort Z.le). Qed.

Lemma sort_permutation l : sort l ≡ₚ l.
Proof. apply merge_sort_Permutation. Qed.

(** What parse_meeting_days returns is a meeting-day pattern. *)
Lemma parse_meeting_days_pattern s days :
  parse_meeting_days s = inr days → MeetingDayPattern days.
Proof.
  unfold parse_meeting_days.
  destruct (collect_weekdays (tokens_of s) []) as [e|wds] eqn:Hwds; [done|].
  simpl. intros [=<-].
  apply collect_weekdays_inr in Hwds as [Hnodup Hrange];
    [|constructor|constructor].
  split.
  - apply StronglySorted_le_lt; [apply sort_sorted|].
    by rewrite sort_permutation.
  - by rewrite sort_permutation.
Qed.

(** C4. parse_meeting_days returns [0, 2, 4] on "MWF", [1, 3] on "TR",
    [0, 2] on "Mon Wed" and [1] on "tuesday". *)
Theorem parse_meeting_days_examples :
  parse_meeting_days "MWF" = inr [0; 2; 4]
  ∧ parse_meeting_days "TR" = inr [1; 3]
  ∧ parse_meeting_days "Mon Wed" = inr [0; 2]
  ∧ parse_meeting_days "tuesday" = inr [1].
Proof. repeat split; vm_compute; reflexivity. Qed.

(** C5. For every meeting-day string on which parse_meeting_days
    succeeds, the returned list has no duplicate entries and is sorted in
    ascending order of weekday number. *)
Theorem parse_meeting_days_sorted_nodup (meeting_days_str : string) (days : list Z) :
  parse_meeting_days meeting_days_str = inr days →
  NoDup days ∧ Sorted Z.le days.
Proof.
  unfold parse_meeting_days.
  destruct (collect_weekdays (tokens_of meeting_days_str) []) as [e|wds] eqn:Hwds;
    [done|].
  simpl. intros [=<-].
  apply collect_weekdays_inr in Hwds as [Hnodup _];
    [|constructor|constructor].
  split; [by rewrite sort_permutation|apply sort_sorted].
Qed.

Lemma parse_meeting_days_sorted_nodup_witness :
  parse_meeting_days "fri, Mon friday W" = inr [0; 2; 4]
  ∧ NoDup [0; 2; 4] ∧ Sorted Z.le [0; 2; 4].
Proof.
  assert (H : parse_meeting_days "fri, Mon friday W" = inr [0; 2; 4])
    by (vm_compute; reflexivity).
  split; [exact H|].
  exact (parse_meeting_days_sorted_nodup _ _ H).
Defined.

(** ** Compact patterns *)

Lemma isalpha_char_plain c :
  Str.isalpha_char c = true →
  Str.isspace c = false ∧ Ascii.eqb c "," = false ∧ Ascii.eqb " " c = false.
Proof.
  destruct c as [[] [] [] [] [] [] [] []]; vm_compute; intros; try done; auto.
Qed.

Lemma isalpha_chars s :
  Str.isalpha s = true → Forall (fun c => Str.isalpha_char c = true) (Str.to_list s).
Proof.
  unfold Str.isalpha. destruct (Str.to_list s) as [|c l]; [done|].
  intros H. apply Forall_forall. intros x Hx.
  rewrite forallb_forall in H. apply H. by apply list_elem_of_In.
Qed.

Lemma of_list_to_list s : Str.of_list (Str.to_list s) = s.
Proof. apply String.string_of_list_ascii_of_string. Qed.

Lemma lower_length s : String.length (Str.lower s) = String.length s.
Proof.
  unfold Str.lower, Str.of_list, Str.to_list.
  induction s as [|c s IH]; simpl; [done|]. by rewrite IH.
Qed.

Lemma lstrip_list_plain l :
  Forall (fun c => Str.isspace c = false) l → Str.lstrip_list l = l.
Proof. destruct 1 as [|c l Hc _]; simpl; [done|]. by rewrite Hc. Qed.

(** An alphabetic string of two or three characters is read letter by
    letter. *)
Lemma tokens_of_compact s :
  Str.isalpha s = true → (2 ≤ String.length s ≤ 3)%nat →
  tokens_of s = Str.chars s.
Proof.
  intros Halpha Hlen. pose proof (isalpha_chars s Halpha) as Hall.
  assert (Hspace : Forall (fun c => Str.isspace c = false) (Str.to_list s)).
  { eapply Forall_impl; [exact Hall|]. intros c Hc.
    by apply isalpha_char_plain in Hc as (? & _). }
  assert (Hreplace : Str.replace "," " " s = s).
  { unfold Str.replace. rewrite <-(of_list_to_list s) at 2. f_equal.
    rewrite <-(map_id (Str.to_list s)) at 2. apply map_ext_Forall.
    eapply Forall_impl; [exact Hall|]. intros c Hc. simpl.
    apply isalpha_char_plain in Hc as (_ & -> & _). done. }
  assert (Hstrip : Str.strip s = s).
  { unfold Str.strip. rewrite (lstrip_list_plain _ Hspace).
    rewrite lstrip_list_plain by (by apply Forall_rev).
    rewrite rev_involutive. apply of_list_to_list. }
  assert (Hcontains : Str.contains " " s = false).
  { unfold Str.contains. apply not_true_is_false.
    intros (c & Hin & Hc)%existsb_exists.
    rewrite Forall_forall in Hall.
    apply list_elem_of_In, Hall, isalpha_char_plain in Hin as (_ & _ & Hne).
    congruence. }
  unfold tokens_of. rewrite Hreplace, Hstrip, Hcontains, Halpha. simpl.
  unfold Str.len.
  destruct (1 <? Z.of_nat (String.length s)) eqn:H1;
    [|apply Z.ltb_ge in H1; lia].
  destruct (Z.of_nat (String.length s) <=? 3) eqn:H3;
    [done|apply Z.leb_gt in H3; lia].
Qed.

(** C10. The table has single-letter keys for Monday to Friday only: m, t,
    w, r and f. Every meeting-day string with a token "s" or "S" makes
    parse_meeting_days raise the unknown-day error, in particular every
    two- or three-letter compact pattern with that letter in it; a token
    read as Saturday or Sunday has two letters or more. *)
Theorem single_letter_days_are_weekdays :
  (∀ c wd,
     DAY_NAME_MAP !! String c EmptyString = Some wd
     ↔ (String c EmptyString, wd) ∈ [("m", 0); ("t", 1); ("w", 2); ("r", 3); ("f", 4)])
  ∧ (∀ s tok,
       tok ∈ tokens_of s → tok = "s" ∨ tok = "S" →
       ∃ bad, parse_meeting_days s = inl (ValueError (Unknown_day_token bad)))
  ∧ (∀ s,
       Str.isalpha s = true → (2 ≤ String.length s ≤ 3)%nat →
       "s" ∈ Str.chars s ∨ "S" ∈ Str.chars s →
       ∃ bad, parse_meeting_days s = inl (ValueError (Unknown_day_token bad)))
  ∧ (∀ tok wd,
       DAY_NAME_MAP !! Str.lower tok = Some wd → 5 ≤ wd →
       (2 ≤ String.length tok)%nat).
Proof.
  assert (Htok : ∀ s tok,
            tok ∈ tokens_of s → tok = "s" ∨ tok = "S" →
            ∃ bad, parse_meeting_days s = inl (ValueError (Unknown_day_token bad))).
  { intros s tok Hin Htok. unfold parse_meeting_days.
    destruct (collect_weekdays_unknown (tokens_of s) [] tok Hin) as [bad ->].
    - destruct Htok as [-> | ->]; vm_compute; reflexivity.
    - by exists bad. }
  split; [|split; [exact Htok|split]].
  - intros c wd. split.
    + intros H%DAY_NAME_MAP_items. unfold DAY_NAME_ITEMS in H.
      repeat (apply elem_of_cons in H as [Heq|H];
              [simplify_eq; repeat constructor|]).
      by apply elem_of_nil in H.
    + intros H.
      repeat (apply elem_of_cons in H as [Heq|H];
              [simplify_eq; vm_compute; reflexivity|]).
      by apply elem_of_nil in H.
  - intros s Halpha Hlen Hin. rewrite <-(tokens_of_compact s Halpha Hlen) in Hin.
    destruct Hin as [Hin|Hin]; eapply Htok; eauto.
  - intros tok wd H%DAY_NAME_MAP_items Hwd. unfold DAY_NAME_ITEMS in H.
    rewrite <-(lower_length tok).
    repeat (apply elem_of_cons in H as [Heq|H];
            [injection Heq as -> ->; simpl; lia|]).
    by apply elem_of_nil in H.
Qed.

Lemma single_letter_days_are_weekdays_witness :
  (∃ bad, parse_meeting_days "MWS" = inl (ValueError (Unknown_day_token bad)))
  ∧ (∃ bad, parse_meeting_days "Mon s" = inl (ValueError (Unknown_day_token bad)))
  ∧ (2 ≤ String.length "Sa")%nat.
Proof.
  destruct single_letter_days_are_weekdays as (_ & Htok & Hcompact & Hlen).
  split; [|split].
  - apply Hcompact; [vm_compute; reflexivity|simpl; lia|].
    right. apply list_elem_of_In. vm_compute. auto.
  - apply (Htok _ "s"); [|by left].
    apply list_elem_of_In. vm_compute. auto.
  - apply (Hlen "Sa" 5); [vm_compute; reflexivity|lia].
Defined.

Example parse_saturday_sunday :
  parse_meeting_days "Sa Su" = inr [5; 6]
  ∧ parse_meeting_days "SS" = inl (ValueError (Unknown_day_token "S"))
  ∧ parse_meeting_days "MWS" = inl (ValueError (Unknown_day_token "S")).
Proof. repeat split; vm_compute; reflexivity. Qed.

(** ** The file writer *)

Section program_facts.
Variable int : string → option Z.
Variable strftime : date → string → string.

Local Abbreviation week_file := (week_file strftime).
Local Abbreviation wrote wk :=
  ("Wrote " +:+ week_filename (week_number wk)).

(** The loop writes one file per week, in order, and cannot fail. *)
Lemma write_weeks_run weeks week_files w :
  write_weeks strftime weeks week_files w
  = (Returns (week_files ++ (week_filename ∘ week_number <$> weeks)),
     mkWorld (files w ++ (week_file <$> weeks))
             (stdout w ++ ((fun wk => wrote wk) <$> weeks))).
Proof.
  revert week_files w.
  induction weeks as [|wk weeks IH]; intros week_files [fs out].
  - cbn [write_weeks ret fmap list_fmap files stdout]. by rewrite !app_nil_r.
  - cbn [write_weeks bind write_text print files stdout].
    rewrite IH. cbn [files stdout fmap list_fmap compose].
    by rewrite <-!app_assoc.
Qed.

(** A run of the calendar engine and the file writer. *)
Lemma write_schedule_run start_date end_date meeting_days no_class_dates w :
  let weeks := (build_schedule start_date end_date meeting_days no_class_dates).1 in
  let w1 := mkWorld (files w ++ (week_file <$> weeks))
                    (stdout w ++ ((fun wk => wrote wk) <$> weeks)) in
  write_schedule strftime start_date end_date meeting_days no_class_dates w
  = match (build_schedule start_date end_date meeting_days no_class_dates).2 with
    | StopIteration =>
        (Returns tt,
         mkWorld (files w1
                  ++ [("main.ptx",
                       main_ptx_text (week_filename ∘ week_number <$> weeks))])
                 (stdout w1 ++ ["Wrote main.ptx"]))
    | Raised e => (Raises e, w1)
    | Unfinished => (Diverges, w1)
    end.
Proof.
  unfold write_schedule.
  destruct (build_schedule _ _ _ _) as [weeks fin].
  cbv beta iota. unfold bind at 1. rewrite write_weeks_run.
  destruct fin; reflexivity.
Qed.

End program_facts.

(** ** main *)

Section main_facts.
Variable int : string → option Z.
Variable strftime : date → string → string.

Local Abbreviation run_main := (main int strftime).
Local Abbreviation parse_date := (parse_date int).

Ltac run := cbv beta iota delta [bind lift ret raise].

(** With fewer than four tokens: the usage text, and exit status 1. *)
Lemma main_usage argv w :
  (length argv < 4)%nat →
  run_main argv w
  = (Raises (SystemExit_code 1), mkWorld (files w) (stdout w ++ [module_doc])).
Proof.
  intros Hlen. unfold main.
  rewrite bool_decide_eq_true_2 by done. reflexivity.
Qed.

(** With four tokens or more and two dates that parse: the stages of
    [main] after the parsing of the dates. *)
Lemma main_run a0 a1 a2 a3 rest start_date end_date w :
  let argv := a0 :: a1 :: a2 :: a3 :: rest in
  parse_date a1 = inr start_date →
  parse_date a2 = inr end_date →
  run_main argv w
  = if end_date <? start_date
    then (Raises (SystemExit_msg "end_date must be on or after start_date"), w)
    else
      match parse_meeting_days a3 with
      | inl e => (Raises e, w)
      | inr meeting_days =>
          match no_class_option int argv with
          | inl e => (Raises e, w)
          | inr no_class_dates =>
              write_schedule strftime start_date end_date meeting_days
                no_class_dates w
          end
      end.
Proof.
  intros argv H1 H2. unfold main.
  rewrite bool_decide_eq_false_2 by (subst argv; cbn [length]; lia).
  change (item argv 1) with (inr a1 : result string).
  change (item argv 2) with (inr a2 : result string).
  change (item argv 3) with (inr a3 : result string).
  run. rewrite H1. run. rewrite H2. run.
  destruct (end_date <? start_date); [done|].
  destruct (parse_meeting_days a3) as [e|days]; [done|].
  destruct (no_class_option int argv) as [e|x]; done.
Qed.

(** A run that returns went through every stage. *)
Lemma main_returns_inv argv w w' :
  run_main argv w = (Returns tt, w') →
  ∃ a0 a1 a2 a3 rest start_date end_date meeting_days no_class_dates,
    argv = a0 :: a1 :: a2 :: a3 :: rest
    ∧ parse_date a1 = inr start_date
    ∧ parse_date a2 = inr end_date
    ∧ start_date ≤ end_date
    ∧ parse_meeting_days a3 = inr meeting_days
    ∧ no_class_option int argv = inr no_class_dates
    ∧ write_schedule strftime start_date end_date meeting_days
        no_class_dates w = (Returns tt, w').
Proof.
  destruct (decide (length argv < 4)%nat) as [Hlen|Hlen].
  { by rewrite main_usage. }
  destruct argv as [|a0 [|a1 [|a2 [|a3 rest]]]];
    try (cbn [length] in Hlen; lia).
  unfold main.
  rewrite bool_decide_eq_false_2 by done.
  change (item (a0 :: a1 :: a2 :: a3 :: rest) 1) with (inr a1 : result string).
  change (item (a0 :: a1 :: a2 :: a3 :: rest) 2) with (inr a2 : result string).
  change (item (a0 :: a1 :: a2 :: a3 :: rest) 3) with (inr a3 : result string).
  run.
  destruct (parse_date a1) as [e|s] eqn:H1; run; [done|].
  destruct (parse_date a2) as [e|e] eqn:H2; run; [done|].
  destruct (e <? s) eqn:Hlt; [done|]. apply Z.ltb_ge in Hlt.
  destruct (parse_meeting_days a3) as [err|days] eqn:H3; [done|].
  destruct (no_class_option int _) as [err|x] eqn:H4; [done|].
  intros Hrun. by eexists a0, a1, a2, a3, rest, s, e, days, x.
Qed.

(** Without the flag the exclusion set is empty. *)
Lemma no_class_option_absent argv :
  "--no-class" ∉ argv → no_class_option int argv = inr ∅.
Proof.
  intros Hnot. unfold no_class_option.
  by rewrite bool_decide_eq_false_2.
Qed.

Lemma index_last x front :
  x ∉ front → index x (front ++ [x]) = inr (length front).
Proof.
  induction front as [|y front IH]; intros Hnot; cbn [index app length].
  - by rewrite bool_decide_eq_true_2.
  - apply not_elem_of_cons in Hnot as [Hne Hnot].
    rewrite bool_decide_eq_false_2 by done. by rewrite IH.
Qed.

(** With the flag as the last token, and nowhere before it, the value is
    found missing. *)
Lemma no_class_option_missing front :
  "--no-class" ∉ front →
  no_class_option int (front ++ ["--no-class"])
  = inl (SystemExit_msg "--no-class requires a value").
Proof.
  intros Hnot. unfold no_class_option.
  rewrite bool_decide_eq_true_2 by set_solver.
  rewrite index_last by done. cbn [bind_result].
  rewrite bool_decide_eq_true_2; [done|].
  rewrite length_app. simpl. lia.
Qed.

End main_facts.

(** ** Properties of a run *)

(** C6. For every invocation whose parsed end date precedes its parsed
    start date, the run ends with the fatal range error, and the files and
    the output are as they were before the run: nothing is written. *)
Theorem end_before_start_is_fatal
    (int : string → option Z) (strftime : date → string → string)
    (argv : list string) (a1 a2 : string) (start_date end_date : date)
    (w : world) :
  (4 ≤ length argv)%nat →
  argv !! 1%nat = Some a1 → argv !! 2%nat = Some a2 →
  parse_date int a1 = inr start_date →
  parse_date int a2 = inr end_date →
  end_date < start_date →
  main int strftime argv w
  = (Raises (SystemExit_msg "end_date must be on or after start_date"), w).
Proof.
  intros Hlen Ha1 Ha2 H1 H2 Hlt.
  destruct argv as [|a0 [|a1' [|a2' [|a3 rest]]]];
    try (cbn [length] in Hlen; lia).
  injection Ha1 as ->. injection Ha2 as ->.
  rewrite (main_run int strftime a0 a1 a2 a3 rest _ _ w H1 H2).
  apply Z.ltb_lt in Hlt. by rewrite Hlt.
Qed.

Lemma end_before_start_is_fatal_witness :
  main int_ascii strftime_c
    ["make_weeks.py"; "3/25/2026"; "3/12/2026"; "MWF"] init
  = (Raises (SystemExit_msg "end_date must be on or after start_date"), init).
Proof.
  apply (end_before_start_is_fatal int_ascii strftime_c _
           "3/25/2026" "3/12/2026" 739700 739687).
  - simpl. lia.
  - reflexivity.
  - reflexivity.
  - vm_compute. reflexivity.
  - vm_compute. reflexivity.
  - lia.
Defined.

(** C7, as amended. For every argument list that passes the checks made
    before the flag is looked for (four tokens or more, two dates that
    parse with the end not before the start, a meeting-day string that
    parses): when the --no-class token is the last token and occurs nowhere
    before, the run ends with the fatal missing-value error, the files and
    the output as they were; when the token is absent, the exclusion set
    used is empty. *)
Theorem missing_no_class_value_is_fatal
    (int : string → option Z) (strftime : date → string → string)
    (a0 a1 a2 a3 : string) (rest : list string)
    (start_date end_date : date) (meeting_days : list Z) :
  let argv := a0 :: a1 :: a2 :: a3 :: rest in
  parse_date int a1 = inr start_date →
  parse_date int a2 = inr end_date →
  start_date ≤ end_date →
  parse_meeting_days a3 = inr meeting_days →
  ((∃ front, argv = front ++ ["--no-class"] ∧ "--no-class" ∉ front) →
   missing_value_error int strftime argv
   ∧ ∀ w, (main int strftime argv w).2 = w)
  ∧ ("--no-class" ∉ argv →
     no_class_option int argv = inr ∅
     ∧ ∀ w, main int strftime argv w
            = write_schedule strftime start_date end_date meeting_days ∅ w).
Proof.
  intros argv H1 H2 Hle H3.
  assert (Hrun : ∀ w, main int strftime argv w
            = match no_class_option int argv with
              | inl e => (Raises e, w)
              | inr no_class_dates =>
                  write_schedule strftime start_date end_date meeting_days
                    no_class_dates w
              end).
  { intros w. subst argv. rewrite (main_run int strftime _ _ _ _ _ _ _ w H1 H2).
    destruct (end_date <? start_date) eqn:Hlt; [apply Z.ltb_lt in Hlt; lia|].
    by rewrite H3. }
  split.
  - intros (front & Hargv & Hnot).
    split; intros w; rewrite Hrun, Hargv; by rewrite no_class_option_missing.
  - intros Hnot. split; [by apply no_class_option_absent|].
    intros w. by rewrite Hrun, no_class_option_absent.
Qed.

Lemma missing_no_class_value_is_fatal_witness :
  (missing_value_error int_ascii strftime_c
     ["make_weeks.py"; "3/12/2026"; "3/25/2026"; "MWF"; "--no-class"]
   ∧ ∀ w, (main int_ascii strftime_c
             ["make_weeks.py"; "3/12/2026"; "3/25/2026"; "MWF"; "--no-class"]
             w).2 = w)
  ∧ no_class_option int_ascii
      ["make_weeks.py"; "3/12/2026"; "3/25/2026"; "MWF"] = inr ∅.
Proof.
  split.
  - apply (missing_no_class_value_is_fatal int_ascii strftime_c
             "make_weeks.py" "3/12/2026" "3/25/2026" "MWF" ["--no-class"]
             739687 739700 [0; 2; 4]).
    + vm_compute. reflexivity.
    + vm_compute. reflexivity.
    + lia.
    + vm_compute. reflexivity.
    + exists ["make_weeks.py"; "3/12/2026"; "3/25/2026"; "MWF"].
      split; [reflexivity|].
      rewrite !not_elem_of_cons. repeat split; try discriminate.
      apply not_elem_of_nil.
  - apply (missing_no_class_value_is_fatal int_ascii strftime_c
             "make_weeks.py" "3/12/2026" "3/25/2026" "MWF" []
             739687 739700 [0; 2; 4]).
    + vm_compute. reflexivity.
    + vm_compute. reflexivity.
    + lia.
    + vm_compute. reflexivity.
    + rewrite !not_elem_of_cons. repeat split; try discriminate.
      apply not_elem_of_nil.
Defined.

(** C7, as stated, fails when an earlier check stops the run first. With
    the flag where the meeting days should be, the run ends with the
    unknown-day error; with two tokens, with the usage error. *)
Lemma missing_value_not_reported :
  (∃ front,
     ["make_weeks.py"; "3/12/2026"; "6/2/2026"; "--no-class"]
     = front ++ ["--no-class"] ∧ "--no-class" ∉ front)
  ∧ main int_ascii strftime_c
      ["make_weeks.py"; "3/12/2026"; "6/2/2026"; "--no-class"] init
    = (Raises (ValueError (Unknown_day_token "--no-class")), init)
  ∧ ¬ missing_value_error int_ascii strftime_c
        ["make_weeks.py"; "3/12/2026"; "6/2/2026"; "--no-class"]
  ∧ main int_ascii strftime_c ["make_weeks.py"; "--no-class"] init
    = (Raises (SystemExit_code 1), mkWorld [] [module_doc])
  ∧ ¬ missing_value_error int_ascii strftime_c ["make_weeks.py"; "--no-class"].
Proof.
  assert (H4 : main int_ascii strftime_c
                 ["make_weeks.py"; "3/12/2026"; "6/2/2026"; "--no-class"] init
               = (Raises (ValueError (Unknown_day_token "--no-class")), init))
    by (vm_compute; reflexivity).
  assert (H2 : main int_ascii strftime_c ["make_weeks.py"; "--no-class"] init
               = (Raises (SystemExit_code 1), mkWorld [] [module_doc]))
    by (vm_compute; reflexivity).
  split; [|split; [exact H4|split; [|split; [exact H2|]]]].
  - exists ["make_weeks.py"; "3/12/2026"; "6/2/2026"]. split; [reflexivity|].
    rewrite !not_elem_of_cons. repeat split; try discriminate.
    apply not_elem_of_nil.
  - intros Hclaim. specialize (Hclaim init). rewrite H4 in Hclaim.
    discriminate Hclaim.
  - intros Hclaim. specialize (Hclaim init). rewrite H2 in Hclaim.
    discriminate Hclaim.
Qed.

Lemma filter_none {A} (P : A → Prop) `{∀ x, Decision (P x)} (l : list A) :
  (∀ x, x ∈ l → ¬ P x) → filter P l = [].
Proof.
  induction l as [|x l IH]; intros Hnone; [done|].
  rewrite filter_cons_False by (apply Hnone; left).
  apply IH. intros y Hy. apply Hnone. by right.
Qed.

(** ** The documents as text *)

Lemma string_app_assoc (s t u : string) : (s +:+ t) +:+ u = s +:+ t +:+ u.
Proof.
  induction s as [|c s IH]; [done|].
  change (String c ((s +:+ t) +:+ u) = String c (s +:+ t +:+ u)).
  by rewrite IH.
Qed.

Lemma string_app_cons (c : ascii) (s t : string) :
  String c s +:+ t = String c (s +:+ t).
Proof. done. Qed.

Lemma string_app_nil (t : string) : "" +:+ t = t.
Proof. done. Qed.

Ltac string_normal :=
  repeat first [ rewrite string_app_assoc
               | rewrite string_app_cons
               | rewrite string_app_nil ].

Lemma join_cons (sep x y : string) (l : list string) :
  Str.join sep (x :: y :: l) = x +:+ sep +:+ Str.join sep (y :: l).
Proof. done. Qed.

(** From 1 on, [:02d] is the decimal form with a zero before a single
    digit. *)
Lemma format_02d_two_digits n : 1 ≤ n → format_02d n = two_digits n.
Proof.
  intros Hn. destruct n as [|p|p]; try lia.
  unfold format_02d, two_digits, str_of_Z.
  change (0 <=? Z.pos p) with true. cbn [andb Z.to_pos Z.to_int].
  by destruct (Z.pos p <? 10).
Qed.

Lemma week_filename_name n : 1 ≤ n → week_filename n = week_name n.
Proof.
  intros Hn. unfold week_filename, week_name.
  by rewrite format_02d_two_digits.
Qed.

Lemma week_filenames_names (k : Z) :
  week_filename <$> seqZ 1 k = week_name <$> seqZ 1 k.
Proof.
  apply list_fmap_ext. intros i n Hn.
  apply lookup_seqZ in Hn as [-> _]. apply week_filename_name. lia.
Qed.

(** The document generated for a week without meetings, character by
    character. *)
Lemma generate_week_xml_empty strftime n week_start week_end :
  1 ≤ n →
  generate_week_xml strftime n week_start week_end []
  = empty_week_text n (strftime week_start "%B %-d")
      (strftime week_end "%B %-d").
Proof.
  intros Hn.
  unfold generate_week_xml, week_xml_lines, empty_week_text,
    format_date_for_title, text_line, quoted, dq, nl.
  rewrite format_02d_two_digits by done.
  cbn [fmap list_fmap concat app].
  rewrite !join_cons. cbn [Str.join].
  string_normal.
  reflexivity.
Qed.

(** The index generated for the files [names], character by character. *)
Lemma main_ptx_text_index names : main_ptx_text names = index_text names.
Proof.
  unfold main_ptx_text, index_text, main_ptx_head, main_ptx_conclusion.
  assert (Hrest : ∀ names,
            Str.join nl ((include_line <$> names)
                         ++ [ "";
                              "  <conclusion>";
                              "    <warning>";
                              "      <p>";
                              "        The instructor reserves the right to modify the schedule as needed.";
                              "      </p>";
                              "    </warning>";
                              "  </conclusion>";
                              "</section>" ])
            = foldr String.append disclaimer (inclusion <$> names)).
  { clear names. induction names as [|name names IH].
    - vm_compute. reflexivity.
    - rewrite !fmap_cons. cbn [foldr app].
      destruct names as [|name' names].
      + cbn [fmap list_fmap app] in *. rewrite join_cons, IH.
        unfold inclusion, include_line, text_line, quoted, dq, nl.
        string_normal. reflexivity.
      + rewrite fmap_cons in *. cbn [app] in *. rewrite join_cons, IH.
        unfold inclusion, include_line, text_line, quoted, dq, nl.
        string_normal. reflexivity. }
  rewrite <-Hrest. cbn [app].
  destruct (include_line <$> names) as [|l ls].
  - vm_compute. reflexivity.
  - cbn [app]. rewrite !join_cons.
    unfold text_line, quoted, dq, nl.
    string_normal. reflexivity.
Qed.

(** C8, as amended. For every calendar week that meets the range, whose
    Sunday is still a date (at most date.max) and whose candidate meeting
    dates are all removed, out of range or excluded: the week is yielded
    with an empty meeting list, and the file of its number is written with
    the document of an empty week, the list in it opened and closed with
    nothing in between. *)
Theorem empty_week_still_written
    (strftime : date → string → string)
    (start_date end_date : date) (meeting_days : list Z)
    (no_class_dates : gset date) (m : date) :
  is_date start_date →
  MeetingDayPattern meeting_days →
  weekday m = 0 → m ≤ end_date → start_date ≤ m + 6 →
  m + 6 ≤ MAXORDINAL →
  (∀ wd, wd ∈ meeting_days →
         is_meeting start_date end_date no_class_dates (m + wd) = false) →
  empty_week_documented strftime start_date end_date meeting_days
    no_class_dates m.
Proof.
  intros Hs [_ Hdays] Hmon Hme Hms Hmax Hnone.
  set (fm := start_date - weekday start_date).
  set (j := Z.to_nat ((m - fm) / 7)).
  assert (Hfm : is_date fm) by by apply monday_is_date.
  assert (Hm : m = fm + 7 * Z.of_nat j).
  { subst j fm. pose proof (weekday_range start_date).
    unfold weekday in *. Z.div_mod_to_equations. lia. }
  pose proof (build_schedule_lookup
                start_date end_date meeting_days no_class_dates j) as Hlookup.
  destruct (schedule_loop_yields start_date end_date meeting_days
              no_class_dates fm j
              (Z.to_nat (end_date - fm) + 2) 0) as [wk Hwk];
    try done; try lia.
  { by rewrite Z.mul_0_r, Z.add_0_r. }
  rewrite <-build_schedule_unfold in Hwk by done.
  destruct (Hlookup wk Hwk) as (Hnum & Hstart & Hend & _ & _ & _ & Hmeet).
  fold fm in Hstart. rewrite <-Hm in Hstart.
  apply week_meetings_inr in Hmeet as [Hmeet _].
  rewrite Hstart, filter_none in Hmeet.
  2:{ intros d (wd & -> & Hwd)%list_elem_of_fmap. simpl.
      rewrite (Hnone wd Hwd). exact id. }
  assert (Heq : wk = mkWeek (Z.of_nat j + 1) m (m + 6) []).
  { destruct wk; simpl in *; congruence. }
  subst wk. exists (Z.of_nat j + 1). split; [|split].
  - by eapply list_elem_of_lookup_2.
  - fold fm. rewrite Hm.
    replace (fm + 7 * Z.of_nat j - fm) with (Z.of_nat j * 7) by lia.
    by rewrite Z.div_mul.
  - intros w. rewrite write_schedule_run.
    rewrite <-week_filename_name, <-generate_week_xml_empty by lia.
    assert (Hin : week_file strftime (mkWeek (Z.of_nat j + 1) m (m + 6) [])
                  ∈ week_file strftime
                    <$> (build_schedule start_date end_date meeting_days
                           no_class_dates).1).
    { apply list_elem_of_fmap_2. by eapply list_elem_of_lookup_2. }
    unfold week_file in Hin at 1. cbn [week_number week_start week_end
      meeting_dates] in Hin.
    destruct (build_schedule _ _ _ _).2; cbn [snd files];
      rewrite ?elem_of_app; auto.
Qed.

(** In the week of Monday 2026-03-09 both candidates, Monday and Wednesday,
    are before the start date 2026-03-12. *)
Lemma empty_week_still_written_witness :
  empty_week_documented strftime_c 739687 739700 [0; 2] {[ 739693 ]} 739684.
Proof.
  apply empty_week_still_written.
  - unfold is_date, MAXORDINAL. lia.
  - split; repeat constructor; lia.
  - reflexivity.
  - lia.
  - lia.
  - unfold MAXORDINAL. lia.
  - intros wd Hwd.
    repeat (apply elem_of_cons in Hwd as [->|Hwd]; [vm_compute; reflexivity|]).
    by apply elem_of_nil in Hwd.
Defined.

(** C8, as stated, fails in the last week of the calendar. With the
    range 9999-12-27 .. 9999-12-31, Monday meetings and that Monday
    excluded, the one week that meets the range has all its candidates
    removed, and it is not yielded: its Sunday is not a date. *)
Lemma empty_week_missing_in_last_week :
  is_date 3652055 ∧ is_date MAXORDINAL ∧ 3652055 ≤ MAXORDINAL
  ∧ MeetingDayPattern [0]
  ∧ weekday 3652055 = 0 ∧ 3652055 ≤ MAXORDINAL ∧ 3652055 ≤ 3652055 + 6
  ∧ (∀ wd, wd ∈ [0] →
           is_meeting 3652055 MAXORDINAL {[ 3652055 ]} (3652055 + wd) = false)
  ∧ build_schedule 3652055 MAXORDINAL [0] {[ 3652055 ]}
    = ([], Raised OverflowError)
  ∧ ¬ empty_week_documented strftime_c 3652055 MAXORDINAL [0] {[ 3652055 ]}
        3652055.
Proof.
  assert (Hrun : build_schedule 3652055 MAXORDINAL [0] {[ 3652055 ]}
                 = ([], Raised OverflowError)) by (vm_compute; reflexivity).
  unfold is_date, MAXORDINAL in *.
  repeat split; try lia; try (repeat constructor; lia); try exact Hrun.
  - intros wd Hwd.
    repeat (apply elem_of_cons in Hwd as [->|Hwd]; [vm_compute; reflexivity|]).
    by apply elem_of_nil in Hwd.
  - intros (n & Hin & _). rewrite Hrun in Hin. by apply elem_of_nil in Hin.
Qed.

(** The numbers of the weeks yielded are 1, 2, ... in this order, whatever
    the arguments and however the generator ends. *)
Lemma build_schedule_numbers start_date end_date meeting_days no_class_dates :
  let weeks := (build_schedule start_date end_date meeting_days no_class_dates).1 in
  week_number <$> weeks = seqZ 1 (Z.of_nat (length weeks)).
Proof.
  intros weeks. rewrite (fmap_by_position _ (Z.add 1)).
  - by rewrite fmap_add_seqZ.
  - intros i w Hw. apply build_schedule_lookup in Hw. lia.
Qed.

(** C9. When a run returns, what it wrote is one document per week
    yielded, the weeks numbered 1, 2, ... and their files named
    week01.ptx, week02.ptx, ... in this order, and after them main.ptx:
    the opening of the titled section, one inclusion per week file in the
    same order, and the disclaimer. *)
Theorem index_includes_every_week_in_order
    (int : string → option Z) (strftime : date → string → string)
    (argv : list string) (w w' : world) :
  main int strftime argv w = (Returns tt, w') →
  ∃ weeks : list Week,
    let numbers := seqZ 1 (Z.of_nat (length weeks)) in
    week_number <$> weeks = numbers
    ∧ (week_file strftime <$> weeks).*1 = week_name <$> numbers
    ∧ files w'
      = files w
        ++ (week_file strftime <$> weeks)
        ++ [("main.ptx", index_text (week_name <$> numbers))].
Proof.
  intros Hrun.
  apply main_returns_inv in Hrun
    as (a0 & a1 & a2 & a3 & rest & s & e & days & x & _ & _ & _ & _ & _ & _ & Hrun).
  rewrite write_schedule_run in Hrun.
  pose proof (build_schedule_numbers s e days x) as Hnum. simpl in Hnum.
  destruct (build_schedule s e days x) as [weeks fin]. simpl in *.
  destruct fin; try discriminate Hrun.
  injection Hrun as <-. exists weeks. cbn zeta.
  assert (Hnames : week_filename ∘ week_number <$> weeks
                   = week_name <$> seqZ 1 (Z.of_nat (length weeks))).
  { by rewrite list_fmap_compose, Hnum, week_filenames_names. }
  split; [done|]. split.
  - rewrite <-Hnames, <-list_fmap_compose. done.
  - cbn [files]. by rewrite main_ptx_text_index, Hnames, <-app_assoc.
Qed.

Lemma index_includes_every_week_in_order_witness :
  let argv := ["make_weeks.py"; "3/12/2026"; "3/25/2026"; "Mon Wed";
               "--no-class"; "3/18/2026"] in
  let w' := (main int_ascii strftime_c argv init).2 in
  main int_ascii strftime_c argv init = (Returns tt, w')
  ∧ ∃ weeks : list Week,
      let numbers := seqZ 1 (Z.of_nat (length weeks)) in
      week_number <$> weeks = numbers
      ∧ (week_file strftime_c <$> weeks).*1 = week_name <$> numbers
      ∧ files w'
        = files init
          ++ (week_file strftime_c <$> weeks)
          ++ [("main.ptx", index_text (week_name <$> numbers))].
Proof.
  intros argv w'.
  assert (Hrun : main int_ascii strftime_c argv init = (Returns tt, w'))
    by (vm_compute; reflexivity).
  split; [exact Hrun|].
  exact (index_includes_every_week_in_order _ _ _ _ _ Hrun).
Defined.

(** The example of the specification: three week documents, no meeting on
    the excluded 2026-03-18, and the three files included in order. *)
Example end_to_end :
  let w' := (main int_ascii strftime_c
               ["make_weeks.py"; "3/12/2026"; "3/25/2026"; "Mon Wed";
                "--no-class"; "3/18/2026"] init).2 in
  (files w').*1 = ["week01.ptx"; "week02.ptx"; "week03.ptx"; "main.ptx"]
  ∧ stdout w' = ["Wrote week01.ptx"; "Wrote week02.ptx"; "Wrote week03.ptx";
                 "Wrote main.ptx"]
  ∧ build_schedule 739687 739700 [0; 2] {[ 739693 ]}
    = ([ mkWeek 1 739684 739690 [];
         mkWeek 2 739691 739697 [739691];
         mkWeek 3 739698 739704 [739698; 739700] ], StopIteration).
Proof. repeat split; vm_compute; reflexivity. Qed.

(** ** Runs that return *)

(** X24. No run is left without an end: the while-True loop of
    build_schedule always comes to its break or to an exception, and
    [Diverges] is never the outcome of main. *)
Lemma main_never_diverges
    (int : string → option Z) (strftime : date → string → string)
    (argv : list string) (w : world) :
  (main int strftime argv w).1 ≠ Diverges.
Proof.
  destruct (decide (length argv < 4)%nat) as [Hlen|Hlen].
  { by rewrite main_usage. }
  destruct argv as [|a0 [|a1 [|a2 [|a3 rest]]]];
    try (cbn [length] in Hlen; lia).
  unfold main. rewrite bool_decide_eq_false_2 by done.
  change (item (a0 :: a1 :: a2 :: a3 :: rest) 1) with (inr a1 : result string).
  change (item (a0 :: a1 :: a2 :: a3 :: rest) 2) with (inr a2 : result string).
  change (item (a0 :: a1 :: a2 :: a3 :: rest) 3) with (inr a3 : result string).
  cbv beta iota delta [bind lift ret raise].
  destruct (parse_date int a1) as [e|s];
    cbv beta iota delta [bind lift ret raise]; [done|].
  destruct (parse_date int a2) as [e|e];
    cbv beta iota delta [bind lift ret raise]; [done|].
  destruct (e <? s); [done|].
  destruct (parse_meeting_days a3) as [err|days]; [done|].
  destruct (no_class_option int _) as [err|x]; [done|].
  rewrite write_schedule_run.
  pose proof (build_schedule_finishes s e days x) as Hfin.
  by destruct (build_schedule s e days x).2.
Qed.

(** X23. A run on arguments that parse, with the end date not before the
    start date and at most 9999-12-19, returns. *)
Lemma main_returns
    (int : string → option Z) (strftime : date → string → string)
    (a0 a1 a2 a3 : string) (rest : list string)
    (start_date end_date : date) (meeting_days : list Z)
    (no_class_dates : gset date) (w : world) :
  let argv := a0 :: a1 :: a2 :: a3 :: rest in
  parse_date int a1 = inr start_date →
  parse_date int a2 = inr end_date →
  start_date ≤ end_date →
  end_date - weekday end_date + 13 ≤ MAXORDINAL →
  parse_meeting_days a3 = inr meeting_days →
  no_class_option int argv = inr no_class_dates →
  (main int strftime argv w).1 = Returns tt.
Proof.
  intros argv H1 H2 Hle Hmax H3 H4. subst argv.
  rewrite (main_run int strftime _ _ _ _ _ _ _ w H1 H2), H3, H4.
  destruct (end_date <? start_date) eqn:Hlt; [apply Z.ltb_lt in Hlt; lia|].
  rewrite write_schedule_run.
  apply parse_meeting_days_pattern in H3 as [_ Hdays].
  destruct (build_schedule_complete start_date end_date meeting_days
              no_class_dates) as [-> _];
    eauto using parse_date_is_date.
Qed.

(** * Further properties *)

(** ** The weeks of the calendar engine *)

(** X1. Every week that build_schedule yields, whatever the arguments and
    however the generator ends, is numbered by its position from 1, runs
    from a Monday to the Sunday six days later, starts on or before
    end_date and ends on or after start_date; the next week yielded starts
    on the day after it ends. *)
Theorem yielded_weeks_run_monday_to_sunday
    (start_date end_date : date) (meeting_days : list Z)
    (no_class_dates : gset date) (i : nat) (w : Week) :
  let weeks :=
    (build_schedule start_date end_date meeting_days no_class_dates).1 in
  weeks !! i = Some w →
  week_number w = Z.of_nat i + 1
  ∧ weekday (week_start w) = 0
  ∧ week_end w = week_start w + 6
  ∧ weekday (week_end w) = 6
  ∧ week_start w ≤ end_date
  ∧ start_date ≤ week_end w
  ∧ ∀ w', weeks !! S i = Some w' → week_start w' = week_end w + 1.
Proof.
  intros weeks Hw. subst weeks.
  pose proof (build_schedule_lookup _ _ _ _ _ _ Hw)
    as (Hnum & Hstart & Hend & _ & _ & Hle & _).
  pose proof (weekday_range start_date) as Hwd.
  assert (Hmon : weekday (week_start w) = 0).
  { rewrite Hstart, weekday_add_7. apply weekday_monday. }
  repeat split; try done.
  - rewrite Hend. unfold weekday in *. Z.div_mod_to_equations. lia.
  - lia.
  - intros w' Hw'.
    apply build_schedule_lookup in Hw' as (_ & Hstart' & _). lia.
Qed.

Lemma yielded_weeks_run_monday_to_sunday_witness :
  week_number (mkWeek 2 739691 739697 [739691]) = Z.of_nat 1 + 1
  ∧ weekday 739691 = 0
  ∧ 739697 = 739691 + 6
  ∧ weekday 739697 = 6
  ∧ 739691 ≤ 739700
  ∧ 739687 ≤ 739697
  ∧ ∀ w',
      (build_schedule 739687 739700 [0; 2] {[ 739693 ]}).1 !! 2%nat = Some w' →
      week_start w' = 739697 + 1.
Proof.
  apply (yielded_weeks_run_monday_to_sunday 739687 739700 [0; 2]
           {[ 739693 ]} 1 (mkWeek 2 739691 739697 [739691])).
  rewrite schedule_march_2026. reflexivity.
Defined.

(** The week that holds a date of the range is yielded when its Sunday is
    a date. *)
Lemma build_schedule_week_of
    (start_date end_date : date) (meeting_days : list Z)
    (no_class_dates : gset date) (d : date) :
  is_date start_date →
  Forall (fun wd => 0 ≤ wd ≤ 6) meeting_days →
  start_date ≤ d ≤ end_date →
  d - weekday d + 6 ≤ MAXORDINAL →
  ∃ i w,
    (build_schedule start_date end_date meeting_days no_class_dates).1 !! i
    = Some w
    ∧ week_start w = d - weekday d.
Proof.
  intros Hs Hdays Hd Hmax.
  set (fm := start_date - weekday start_date).
  set (j := Z.to_nat ((d - fm) / 7)).
  assert (Hfm : is_date fm) by by apply monday_is_date.
  assert (Hj : fm + 7 * Z.of_nat j = d - weekday d).
  { subst j fm. pose proof (weekday_range start_date).
    unfold weekday in *. Z.div_mod_to_equations. lia. }
  pose proof (weekday_range d) as Hwd.
  destruct (schedule_loop_yields start_date end_date meeting_days
              no_class_dates fm j
              (Z.to_nat (end_date - fm) + 2) 0) as [w Hw];
    try done; try lia.
  { by rewrite Z.mul_0_r, Z.add_0_r. }
  rewrite <-build_schedule_unfold in Hw by done.
  exists j, w. split; [done|].
  apply build_schedule_lookup in Hw as (_ & -> & _). by fold fm.
Qed.

(** X2. For a range whose last week ends on a date (end_date at most
    9999-12-26) and a meeting-day pattern, the meeting dates of the weeks
    yielded are exactly the dates of the range that fall on a meeting
    weekday and are not excluded. *)
Theorem meetings_are_the_class_days
    (start_date end_date : date) (meeting_days : list Z)
    (no_class_dates : gset date) (d : date) :
  is_date start_date →
  MeetingDayPattern meeting_days →
  end_date - weekday end_date + 6 ≤ MAXORDINAL →
  (∃ w,
     w ∈ (build_schedule start_date end_date meeting_days no_class_dates).1
     ∧ d ∈ meeting_dates w)
  ↔ (start_date ≤ d ≤ end_date)
    ∧ (d ∉ no_class_dates)
    ∧ (weekday d ∈ meeting_days).
Proof.
  intros Hs [_ Hdays] Hmax. split.
  - intros (w & Hw & Hd).
    rewrite (build_schedule_meetings _ _ _ _ _ Hw) in Hd.
    apply list_elem_of_filter in Hd as [Hm Hd].
    apply is_meeting_spec in Hm as [Hrange Hnot].
    apply list_elem_of_fmap in Hd as (wd & -> & Hwd).
    split; [done|]. split; [done|].
    apply list_elem_of_lookup in Hw as [i Hw].
    apply build_schedule_lookup in Hw as (_ & Hstart & _).
    rewrite Forall_forall in Hdays. specialize (Hdays wd Hwd).
    assert (weekday (week_start w + wd) = wd) as ->; [|done].
    rewrite Hstart. pose proof (weekday_range start_date).
    unfold weekday in *. Z.div_mod_to_equations. lia.
  - intros (Hrange & Hnot & Hwd).
    assert (Hweek : d - weekday d + 6 ≤ MAXORDINAL).
    { unfold weekday in *. Z.div_mod_to_equations. lia. }
    destruct (build_schedule_week_of start_date end_date meeting_days
                no_class_dates d) as (i & w & Hw & Hstart); try done.
    exists w. apply list_elem_of_lookup_2 in Hw. split; [done|].
    rewrite (build_schedule_meetings _ _ _ _ _ Hw).
    apply list_elem_of_filter. split.
    + by apply is_meeting_spec.
    + apply list_elem_of_fmap. exists (weekday d). split; [lia|done].
Qed.

Lemma meetings_are_the_class_days_witness :
  (∃ w,
     w ∈ (build_schedule 739687 739700 [0; 2] {[ 739693 ]}).1
     ∧ 739698 ∈ meeting_dates w)
  ↔ (739687 ≤ 739698 ≤ 739700)
    ∧ (739698 ∉ ({[ 739693 ]} : gset date))
    ∧ (weekday 739698 ∈ [0; 2]).
Proof.
  apply meetings_are_the_class_days.
  - unfold is_date, MAXORDINAL. lia.
  - split; repeat constructor; lia.
  - vm_compute. discriminate.
Defined.

(** X3. For a meeting-day pattern, the meetings of an earlier week all
    come before the meetings of a later week: with the order inside each
    week, the whole schedule is in chronological order without repeats. *)
Theorem meetings_of_later_weeks_are_later
    (start_date end_date : date) (meeting_days : list Z)
    (no_class_dates : gset date) (i j : nat) (wi wj : Week) (di dj : date) :
  let weeks :=
    (build_schedule start_date end_date meeting_days no_class_dates).1 in
  MeetingDayPattern meeting_days →
  weeks !! i = Some wi → weeks !! j = Some wj → (i < j)%nat →
  di ∈ meeting_dates wi → dj ∈ meeting_dates wj →
  di < dj.
Proof.
  intros weeks [_ Hdays] Hwi Hwj Hij Hdi Hdj. subst weeks.
  rewrite Forall_forall in Hdays.
  rewrite (build_schedule_meetings _ _ _ _ wi) in Hdi
    by by eapply list_elem_of_lookup_2.
  rewrite (build_schedule_meetings _ _ _ _ wj) in Hdj
    by by eapply list_elem_of_lookup_2.
  apply list_elem_of_filter in Hdi as [_ Hdi].
  apply list_elem_of_filter in Hdj as [_ Hdj].
  apply list_elem_of_fmap in Hdi as (a & -> & Ha).
  apply list_elem_of_fmap in Hdj as (b & -> & Hb).
  apply Hdays in Ha, Hb.
  apply build_schedule_lookup in Hwi as (_ & -> & _).
  apply build_schedule_lookup in Hwj as (_ & -> & _). lia.
Qed.

Lemma meetings_of_later_weeks_are_later_witness : 739691 < 739700.
Proof.
  apply (meetings_of_later_weeks_are_later 739687 739700 [0; 2]
           {[ 739693 ]} 1 2 (mkWeek 2 739691 739697 [739691])
           (mkWeek 3 739698 739704 [739698; 739700])).
  - split; repeat constructor; lia.
  - rewrite schedule_march_2026. reflexivity.
  - rewrite schedule_march_2026. reflexivity.
  - lia.
  - simpl. apply list_elem_of_In. simpl. auto.
  - simpl. apply list_elem_of_In. simpl. auto.
Defined.

(** X4. For a range whose last week ends on a date and a meeting-day
    pattern, every date of the range lies in one yielded week and in no
    other. *)
Theorem every_date_in_one_week
    (start_date end_date : date) (meeting_days : list Z)
    (no_class_dates : gset date) (d : date) :
  let weeks :=
    (build_schedule start_date end_date meeting_days no_class_dates).1 in
  is_date start_date →
  MeetingDayPattern meeting_days →
  end_date - weekday end_date + 6 ≤ MAXORDINAL →
  start_date ≤ d ≤ end_date →
  ∃ i w,
    weeks !! i = Some w
    ∧ week_start w ≤ d ≤ week_end w
    ∧ ∀ j w', weeks !! j = Some w' →
              week_start w' ≤ d ≤ week_end w' → j = i.
Proof.
  intros weeks Hs [_ Hdays] Hmax Hd. subst weeks.
  pose proof (weekday_range d) as Hwd.
  assert (Hweek : d - weekday d + 6 ≤ MAXORDINAL).
  { unfold weekday in *. Z.div_mod_to_equations. lia. }
  destruct (build_schedule_week_of start_date end_date meeting_days
              no_class_dates d) as (i & w & Hw & Hstart); try done.
  exists i, w. split; [done|].
  pose proof (build_schedule_lookup _ _ _ _ _ _ Hw) as (_ & Hi & Hend & _).
  split; [lia|].
  intros j w' Hw' Hin.
  apply build_schedule_lookup in Hw' as (_ & Hj & Hend' & _). lia.
Qed.

Lemma every_date_in_one_week_witness :
  ∃ i w,
    (build_schedule 739687 739700 [0; 2] {[ 739693 ]}).1 !! i = Some w
    ∧ week_start w ≤ 739693 ≤ week_end w
    ∧ ∀ j w',
        (build_schedule 739687 739700 [0; 2] {[ 739693 ]}).1 !! j = Some w' →
        week_start w' ≤ 739693 ≤ week_end w' → j = i.
Proof.
  apply every_date_in_one_week.
  - unfold is_date, MAXORDINAL. lia.
  - split; repeat constructor; lia.
  - vm_compute. discriminate.
  - lia.
Defined.

(** ** Exclusions *)

Lemma is_meeting_excluded start_date end_date (excluded : gset date) d :
  is_meeting start_date end_date excluded d
  = is_meeting start_date end_date ∅ d && bool_decide (d ∉ excluded).
Proof.
  unfold is_meeting.
  rewrite (bool_decide_eq_false_2 (d ∈ (∅ : gset date))) by set_solver.
  destruct (bool_decide (d ∈ excluded)) eqn:Hd.
  - apply bool_decide_eq_true in Hd.
    rewrite (bool_decide_eq_false_2 (d ∉ excluded)) by tauto.
    by rewrite !andb_false_r.
  - apply bool_decide_eq_false in Hd.
    rewrite (bool_decide_eq_true_2 (d ∉ excluded)) by done.
    by rewrite !andb_true_r.
Qed.

(** The meetings of a week with exclusions are those without exclusions,
    the excluded dates left out; an overflow does not depend on the
    exclusions. *)
Lemma week_meetings_excluded start_date end_date (excluded : gset date)
    ws days acc :
  week_meetings start_date end_date excluded ws days
    (filter (fun d => d ∉ excluded) acc)
  = match week_meetings start_date end_date ∅ ws days acc with
    | inl e => inl e
    | inr ms => inr (filter (fun d => d ∉ excluded) ms)
    end.
Proof.
  revert acc. induction days as [|wd days IH]; intros acc; csimpl; [done|].
  destruct (date_add ws wd) as [e|d]; csimpl; [done|].
  rewrite is_meeting_excluded.
  destruct (is_meeting start_date end_date ∅ d); simpl; [|apply IH].
  rewrite <-IH, filter_app. f_equal.
  case_bool_decide as Hd.
  - by rewrite filter_cons_True by exact Hd.
  - rewrite filter_cons_False by (intros Hn; exact (Hn Hd)).
    by rewrite app_nil_r.
Qed.

Lemma schedule_loop_excluded start_date end_date meeting_days
    (excluded : gset date) fuel first_monday idx :
  schedule_loop start_date end_date meeting_days excluded fuel first_monday idx
  = (without_dates excluded
       <$> (schedule_loop start_date end_date meeting_days ∅ fuel
              first_monday idx).1,
     (schedule_loop start_date end_date meeting_days ∅ fuel
        first_monday idx).2).
Proof.
  revert idx. induction fuel as [|fuel IH]; intros idx; simpl; [done|].
  destruct (date_add first_monday (7 * idx)) as [e|ws]; [done|].
  destruct (date_add ws 6) as [e|we]; [done|].
  destruct (end_date <? ws); [done|].
  pose proof (week_meetings_excluded start_date end_date excluded ws
                meeting_days []) as Hms.
  rewrite filter_nil in Hms. rewrite Hms.
  destruct (week_meetings start_date end_date ∅ ws meeting_days [])
    as [e|ms]; [done|].
  rewrite IH.
  by destruct (schedule_loop start_date end_date meeting_days ∅ fuel
                 first_monday (idx + 1)).
Qed.

(** X5. The exclusion set only removes meetings: build_schedule with
    exclusions yields the weeks it yields without any, same numbers, same
    starts and ends, with the excluded dates left out of the meeting lists,
    and it ends in the same way. *)
Theorem exclusions_only_remove_meetings
    (start_date end_date : date) (meeting_days : list Z)
    (no_class_dates : gset date) :
  build_schedule start_date end_date meeting_days no_class_dates
  = (without_dates no_class_dates
       <$> (build_schedule start_date end_date meeting_days ∅).1,
     (build_schedule start_date end_date meeting_days ∅).2).
Proof.
  unfold build_schedule.
  destruct (date_add start_date (- weekday start_date)) as [e|fm]; [done|].
  apply schedule_loop_excluded.
Qed.



(** ** The reading of the meeting days *)

Lemma StronglySorted_lt_NoDup (l : list Z) : StronglySorted Z.lt l → NoDup l.
Proof.
  induction 1 as [|x l Hl IH Hx]; constructor; [|done].
  intros Hin. rewrite Forall_forall in Hx. specialize (Hx x Hin). lia.
Qed.

(** What the loop over the tokens returns holds the weekdays it started
    with and those of the tokens, and no other. *)
Lemma collect_weekdays_elements tokens acc days :
  collect_weekdays tokens acc = inr days →
  ∀ wd, wd ∈ days
        ↔ wd ∈ acc ∨ ∃ tok, tok ∈ tokens ∧ DAY_NAME_MAP !! Str.lower tok = Some wd.
Proof.
  revert acc. induction tokens as [|tok tokens IH]; intros acc;
    cbn [collect_weekdays].
  - intros [=<-] wd. split; [by left|].
    intros [?|(? & ?%elem_of_nil & _)]; done.
  - destruct (DAY_NAME_MAP !! Str.lower tok) as [w|] eqn:Hw; [|done].
    intros Hrest wd. rewrite (IH _ Hrest wd). split.
    + intros [Hin|(t & Ht & Hwd)].
      * case_bool_decide; [by left|].
        apply elem_of_app in Hin as [?|Heq%list_elem_of_singleton]; [by left|].
        subst wd. right. exists tok. split; [by left|done].
      * right. exists t. split; [by right|done].
    + intros [Hin|(t & Ht & Hwd)].
      * left. case_bool_decide; [done|]. apply elem_of_app. by left.
      * apply elem_of_cons in Ht as [->|Ht].
        -- left. rewrite Hw in Hwd. injection Hwd as ->.
           case_bool_decide; [done|]. apply elem_of_app. right. by left.
        -- right. by exists t.
Qed.

(** The loop succeeds when every token is in the table. *)
Lemma collect_weekdays_known tokens acc :
  (∀ tok, tok ∈ tokens → is_Some (DAY_NAME_MAP !! Str.lower tok)) →
  ∃ days, collect_weekdays tokens acc = inr days.
Proof.
  revert acc. induction tokens as [|tok tokens IH]; intros acc Hknown;
    cbn [collect_weekdays]; [by eexists|].
  destruct (Hknown tok) as [wd ->]; [by left|].
  apply IH. intros t Ht. apply Hknown. by right.
Qed.

(** The loop raises at the first token that is not in the table, and
    names it. *)
Lemma collect_weekdays_first_unknown good bad rest acc :
  (∀ tok, tok ∈ good → is_Some (DAY_NAME_MAP !! Str.lower tok)) →
  DAY_NAME_MAP !! Str.lower bad = None →
  collect_weekdays (good ++ bad :: rest) acc
  = inl (ValueError (Unknown_day_token bad)).
Proof.
  revert acc. induction good as [|tok good IH]; intros acc Hknown Hbad;
    cbn [collect_weekdays app].
  - by rewrite Hbad.
  - destruct (Hknown tok) as [wd ->]; [by left|].
    apply IH; [|done]. intros t Ht. apply Hknown. by right.
Qed.

(** X7. parse_meeting_days succeeds exactly when every token of the string
    is in the table, whatever its case; the list it returns is then the
    strictly increasing list of the weekday numbers that the tokens name,
    each once. *)
Theorem parse_meeting_days_returns_the_named_weekdays
    (meeting_days_str : string) (days : list Z) :
  parse_meeting_days meeting_days_str = inr days
  ↔ (∀ tok, tok ∈ tokens_of meeting_days_str →
            is_Some (DAY_NAME_MAP !! Str.lower tok))
    ∧ StronglySorted Z.lt days
    ∧ (∀ wd, wd ∈ days
             ↔ ∃ tok, tok ∈ tokens_of meeting_days_str
                      ∧ DAY_NAME_MAP !! Str.lower tok = Some wd).
Proof.
  assert (Helems : ∀ wds,
            collect_weekdays (tokens_of meeting_days_str) [] = inr wds →
            ∀ wd, wd ∈ sort wds
                  ↔ ∃ tok, tok ∈ tokens_of meeting_days_str
                           ∧ DAY_NAME_MAP !! Str.lower tok = Some wd).
  { intros wds Hwds wd. rewrite sort_permutation.
    rewrite (collect_weekdays_elements _ _ _ Hwds wd).
    split; [intros [?%elem_of_nil|?]; done|by right]. }
  split.
  - intros Hparse. pose proof (parse_meeting_days_pattern _ _ Hparse) as [Hs _].
    unfold parse_meeting_days in Hparse.
    destruct (collect_weekdays (tokens_of meeting_days_str) [])
      as [e|wds] eqn:Hwds; [done|].
    simpl in Hparse. injection Hparse as <-.
    split; [|split; [done|by apply Helems]].
    intros tok Htok.
    destruct (DAY_NAME_MAP !! Str.lower tok) eqn:Hlookup; [by eexists|].
    destruct (collect_weekdays_unknown _ [] _ Htok Hlookup) as [bad Hbad].
    congruence.
  - intros (Hknown & Hsorted & Hdays).
    destruct (collect_weekdays_known _ [] Hknown) as [wds Hwds].
    assert (Hparse : parse_meeting_days meeting_days_str = inr (sort wds)).
    { unfold parse_meeting_days. by rewrite Hwds. }
    rewrite Hparse. f_equal.
    pose proof (parse_meeting_days_pattern _ _ Hparse) as [Hs _].
    apply (StronglySorted_unique_strong Z.lt); try done; [intros; lia|].
    apply NoDup_Permutation.
    + by apply StronglySorted_lt_NoDup.
    + by apply StronglySorted_lt_NoDup.
    + intros wd. by rewrite (Helems _ Hwds), Hdays.
Qed.

Lemma parse_meeting_days_returns_the_named_weekdays_witness :
  parse_meeting_days "fri, Mon friday W" = inr [0; 2; 4].
Proof.
  apply parse_meeting_days_returns_the_named_weekdays.
  assert (Htokens : tokens_of "fri, Mon friday W" = ["fri"; "Mon"; "friday"; "W"])
    by (vm_compute; reflexivity).
  rewrite Htokens. split; [|split].
  - intros tok Htok.
    repeat (apply elem_of_cons in Htok as [->|Htok];
            [vm_compute; by eexists|]).
    by apply elem_of_nil in Htok.
  - repeat constructor; lia.
  - intros wd. split.
    + intros Hwd.
      repeat (apply elem_of_cons in Hwd as [->|Hwd]).
      * exists "Mon". split; [set_solver|vm_compute; reflexivity].
      * exists "W". split; [set_solver|vm_compute; reflexivity].
      * exists "fri". split; [set_solver|vm_compute; reflexivity].
      * by apply elem_of_nil in Hwd.
    + intros (tok & Htok & Hwd).
      repeat (apply elem_of_cons in Htok as [->|Htok];
              [vm_compute in Hwd; injection Hwd as <-; set_solver|]).
      by apply elem_of_nil in Htok.
Defined.

(** X8. When some token is not in the table, parse_meeting_days raises the
    unknown-day error with the first such token, as it is written. *)
Theorem parse_meeting_days_names_first_unknown
    (meeting_days_str : string) (good : list string) (bad : string)
    (rest : list string) :
  tokens_of meeting_days_str = good ++ bad :: rest →
  (∀ tok, tok ∈ good → is_Some (DAY_NAME_MAP !! Str.lower tok)) →
  DAY_NAME_MAP !! Str.lower bad = None →
  parse_meeting_days meeting_days_str
  = inl (ValueError (Unknown_day_token bad)).
Proof.
  intros Htokens Hgood Hbad. unfold parse_meeting_days.
  by rewrite Htokens, collect_weekdays_first_unknown.
Qed.

Lemma parse_meeting_days_names_first_unknown_witness :
  parse_meeting_days "Mon Frday wed Xyz"
  = inl (ValueError (Unknown_day_token "Frday")).
Proof.
  apply (parse_meeting_days_names_first_unknown _ ["Mon"] "Frday" ["wed"; "Xyz"]).
  - vm_compute. reflexivity.
  - intros tok Htok.
    apply elem_of_cons in Htok as [->|Htok]; [vm_compute; by eexists|].
    by apply elem_of_nil in Htok.
  - vm_compute. reflexivity.
Defined.

(** ** How a meeting-day string is cut into tokens *)

Lemma to_list_of_list l : Str.to_list (Str.of_list l) = l.
Proof. apply String.list_ascii_of_string_of_list_ascii. Qed.

Lemma lstrip_list_spaces l :
  Forall (fun c => Str.isspace c = true) l → Str.lstrip_list l = [].
Proof. induction 1 as [|c l Hc _ IH]; simpl; [done|]. by rewrite Hc. Qed.

(** A string without whitespace and commas is left as it is by the
    replacement of commas and by [strip]. *)
Lemma replace_strip_plain s :
  Forall (fun c => Str.isspace c = false ∧ c ≠ ","%char) (Str.to_list s) →
  Str.strip (Str.replace "," " " s) = s.
Proof.
  intros Hplain.
  assert (Hreplace : Str.replace "," " " s = s).
  { unfold Str.replace. rewrite <-(of_list_to_list s) at 2. f_equal.
    rewrite <-(map_id (Str.to_list s)) at 2. apply map_ext_Forall.
    eapply Forall_impl; [exact Hplain|]. intros c [_ Hc]. simpl.
    by apply Ascii.eqb_neq in Hc as ->. }
  assert (Hspace : Forall (fun c => Str.isspace c = false) (Str.to_list s)).
  { eapply Forall_impl; [exact Hplain|]. by intros c [? _]. }
  rewrite Hreplace. unfold Str.strip.
  rewrite (lstrip_list_plain _ Hspace).
  rewrite lstrip_list_plain by (by apply Forall_rev).
  rewrite rev_involutive. apply of_list_to_list.
Qed.

Lemma split_ws_plain cur l :
  Forall (fun c => Str.isspace c = false) l →
  cur ≠ [] ∨ l ≠ [] →
  Str.split_ws cur l = [Str.of_list (rev cur ++ l)].
Proof.
  intros Hplain. revert cur.
  induction Hplain as [|c l Hc _ IH]; intros cur Hne; simpl.
  - destruct cur; [by destruct Hne|]. by rewrite app_nil_r.
  - rewrite Hc, IH by (by left). simpl. by rewrite <-app_assoc.
Qed.

(** A non-empty string without whitespace and commas that is not of the
    compact form is one token. *)
Lemma tokens_of_plain s :
  Forall (fun c => Str.isspace c = false ∧ c ≠ ","%char) (Str.to_list s) →
  s ≠ EmptyString →
  Str.isalpha s = false ∨ String.length s = 1%nat ∨ (4 ≤ String.length s)%nat →
  tokens_of s = [s].
Proof.
  intros Hplain Hne Hform. unfold tokens_of.
  rewrite (replace_strip_plain s Hplain). cbv zeta.
  assert (Hspace : Forall (fun c => Str.isspace c = false) (Str.to_list s)).
  { eapply Forall_impl; [exact Hplain|]. by intros c [? _]. }
  assert (Hsplit : Str.split s = [s]).
  { unfold Str.split. rewrite split_ws_plain; [|done|].
    - simpl. by rewrite of_list_to_list.
    - right. intros Hnil. apply Hne.
      by rewrite <-(of_list_to_list s), Hnil. }
  destruct (negb (Str.contains " " s) && Str.isalpha s
            && (1 <? Str.len s) && (Str.len s <=? 3)) eqn:Hcompact; [|done].
  repeat (apply andb_prop in Hcompact as [Hcompact ?]).
  unfold Str.len in *.
  destruct Hform as [?|[?|?]]; [congruence|lia|lia].
Qed.

(** X9. A meeting-day string of whitespace and commas only, the empty
    string among them, is accepted: parse_meeting_days returns the empty
    list, no error. *)
Theorem parse_meeting_days_of_blank (meeting_days_str : string) :
  Forall (fun c => Str.isspace c = true ∨ c = ","%char)
    (Str.to_list meeting_days_str) →
  parse_meeting_days meeting_days_str = inr [].
Proof.
  intros Hblank.
  assert (Hstrip : Str.strip (Str.replace "," " " meeting_days_str) = EmptyString).
  { unfold Str.strip, Str.replace. rewrite to_list_of_list.
    rewrite (lstrip_list_spaces
               (map (fun c => if Ascii.eqb c "," then " "%char else c)
                  (Str.to_list meeting_days_str))); [done|].
    apply Forall_forall. intros c Hc%list_elem_of_In%in_map_iff.
    destruct Hc as (c0 & <- & Hc0%list_elem_of_In).
    rewrite Forall_forall in Hblank.
    destruct (Hblank c0 Hc0) as [Hsp| ->]; [|done].
    by destruct (Ascii.eqb c0 ","). }
  unfold parse_meeting_days, tokens_of. rewrite Hstrip. reflexivity.
Qed.

Lemma parse_meeting_days_of_blank_witness :
  parse_meeting_days " , " = inr [] ∧ parse_meeting_days "" = inr [].
Proof.
  split; apply parse_meeting_days_of_blank.
  - repeat constructor; (by left) || (by right).
  - constructor.
Defined.

(** X10. A string without whitespace and commas that is not of the compact
    form (not alphabetic, or of one letter, or of four letters or more) is
    read as one token: parse_meeting_days returns the one weekday when the
    string, in lower case, is in the table, and raises the unknown-day
    error with the whole string otherwise. A compact pattern of four or
    five letters is refused in this way. *)
Theorem parse_meeting_days_of_one_token (meeting_days_str : string) :
  Forall (fun c => Str.isspace c = false ∧ c ≠ ","%char)
    (Str.to_list meeting_days_str) →
  meeting_days_str ≠ EmptyString →
  Str.isalpha meeting_days_str = false
  ∨ String.length meeting_days_str = 1%nat
  ∨ (4 ≤ String.length meeting_days_str)%nat →
  parse_meeting_days meeting_days_str
  = match DAY_NAME_MAP !! Str.lower meeting_days_str with
    | Some wd => inr [wd]
    | None => inl (ValueError (Unknown_day_token meeting_days_str))
    end.
Proof.
  intros Hplain Hne Hform. unfold parse_meeting_days.
  rewrite (tokens_of_plain _ Hplain Hne Hform). cbn [collect_weekdays].
  by destruct (DAY_NAME_MAP !! Str.lower meeting_days_str).
Qed.

Lemma parse_meeting_days_of_one_token_witness :
  parse_meeting_days "MTWRF" = inl (ValueError (Unknown_day_token "MTWRF"))
  ∧ parse_meeting_days "Thurs" = inr [3].
Proof.
  split.
  - rewrite parse_meeting_days_of_one_token.
    + vm_compute. reflexivity.
    + repeat constructor; discriminate.
    + discriminate.
    + right. right. simpl. lia.
  - rewrite parse_meeting_days_of_one_token.
    + vm_compute. reflexivity.
    + repeat constructor; discriminate.
    + discriminate.
    + right. right. simpl. lia.
Defined.

(** The single-letter keys of the table. *)
Lemma single_letter_key c wd :
  DAY_NAME_MAP !! String c EmptyString = Some wd →
  c ∈ ["m"; "t"; "w"; "r"; "f"]%char.
Proof.
  intros H%DAY_NAME_MAP_items. unfold DAY_NAME_ITEMS in H.
  repeat (apply elem_of_cons in H as [Heq|H];
          [simplify_eq; repeat constructor|]).
  by apply elem_of_nil in H.
Qed.

Lemma isalpha_char_lower c :
  Str.isalpha_char (Str.lower_char c) = Str.isalpha_char c.
Proof. destruct c as [[] [] [] [] [] [] [] []]; vm_compute; reflexivity. Qed.

Lemma to_list_lower s :
  Str.to_list (Str.lower s) = map Str.lower_char (Str.to_list s).
Proof. unfold Str.lower. apply to_list_of_list. Qed.

Lemma forallb_isalpha_lower l :
  forallb Str.isalpha_char (map Str.lower_char l) = forallb Str.isalpha_char l.
Proof.
  induction l as [|x l IH]; simpl; [done|]. by rewrite isalpha_char_lower, IH.
Qed.

Lemma isalpha_lower s : Str.isalpha (Str.lower s) = Str.isalpha s.
Proof.
  unfold Str.isalpha. rewrite to_list_lower.
  destruct (Str.to_list s) as [|c l]; [done|].
  apply (forallb_isalpha_lower (c :: l)).
Qed.

(** A compact pattern is accepted only when each of its letters, in lower
    case, is one of m, t, w, r, f. *)
Lemma compact_letters s days :
  Str.isalpha s = true → (2 ≤ String.length s ≤ 3)%nat →
  parse_meeting_days s = inr days →
  Forall (fun c => Str.lower_char c ∈ ["m"; "t"; "w"; "r"; "f"]%char)
    (Str.to_list s).
Proof.
  intros Halpha Hlen Hparse. apply Forall_forall. intros c Hc.
  unfold parse_meeting_days in Hparse.
  rewrite (tokens_of_compact s Halpha Hlen) in Hparse.
  destruct (DAY_NAME_MAP !! Str.lower (String c EmptyString)) as [wd|] eqn:Hkey.
  - by apply single_letter_key in Hkey.
  - destruct (collect_weekdays_unknown (Str.chars s) []
                (String c EmptyString)) as [bad Hbad]; [|done|].
    + unfold Str.chars. apply list_elem_of_In.
      apply (in_map (fun c => String c EmptyString)). by apply list_elem_of_In.
    + by rewrite Hbad in Hparse.
Qed.

(** X11. A day abbreviation of two or three letters given alone (Tu, Th,
    Sa, Su, Mon, Tue, Wed, Thu, Fri, Sat, Sun, in any case) is refused: the
    string is of the compact form, it is read letter by letter, and one of
    the letters is not a day letter. The abbreviation is accepted with
    another token beside it. *)
Theorem short_day_name_alone_is_refused (meeting_days_str : string) (wd : Z) :
  DAY_NAME_MAP !! Str.lower meeting_days_str = Some wd →
  (2 ≤ String.length meeting_days_str ≤ 3)%nat →
  ∃ bad,
    String.length bad = 1%nat
    ∧ parse_meeting_days meeting_days_str
      = inl (ValueError (Unknown_day_token bad)).
Proof.
  intros Hkey Hlen.
  assert (Halpha : Str.isalpha meeting_days_str = true).
  { rewrite <-isalpha_lower. apply DAY_NAME_MAP_items in Hkey.
    unfold DAY_NAME_ITEMS in Hkey.
    repeat (apply elem_of_cons in Hkey as [Heq|Hkey];
            [injection Heq as -> _; vm_compute; reflexivity|]).
    by apply elem_of_nil in Hkey. }
  destruct (parse_meeting_days meeting_days_str) as [e|days] eqn:Hparse.
  - pose proof Hparse as Hparse'. unfold parse_meeting_days in Hparse.
    rewrite (tokens_of_compact _ Halpha Hlen) in Hparse.
    destruct (collect_weekdays (Str.chars meeting_days_str) [])
      as [e'|wds] eqn:Hwds; [|done].
    simpl in Hparse. injection Hparse as <-.
    assert (Hshape : ∀ tokens acc,
              Forall (fun t => String.length t = 1%nat) tokens →
              collect_weekdays tokens acc = inl e' →
              ∃ bad, String.length bad = 1%nat
                     ∧ e' = ValueError (Unknown_day_token bad)).
    { induction tokens as [|t tokens IH]; intros acc Hall;
        cbn [collect_weekdays]; [done|].
      inversion_clear Hall as [|?? Ht Hall'].
      destruct (DAY_NAME_MAP !! Str.lower t); [by apply IH|].
      intros [=<-]. by exists t. }
    assert (Hall : Forall (fun t => String.length t = 1%nat)
                     (Str.chars meeting_days_str)).
    { apply Forall_forall. intros t Ht.
      unfold Str.chars in Ht. apply list_elem_of_In, in_map_iff in Ht.
      by destruct Ht as (c & <- & _). }
    destruct (Hshape _ _ Hall Hwds) as (bad & ? & ->). by exists bad.
  - exfalso.
    pose proof (compact_letters _ _ Halpha Hlen Hparse) as Hletters.
    assert (Hlower : Forall (fun k => k ∈ ["m"; "t"; "w"; "r"; "f"]%char)
                       (Str.to_list (Str.lower meeting_days_str))).
    { rewrite to_list_lower. apply Forall_forall.
      intros k Hk%list_elem_of_In%in_map_iff.
      destruct Hk as (c & <- & Hc%list_elem_of_In).
      rewrite Forall_forall in Hletters. by apply Hletters. }
    clear Hletters. rename Hlower into Hletters.
    rewrite <-(lower_length meeting_days_str) in Hlen.
    apply DAY_NAME_MAP_items in Hkey. unfold DAY_NAME_ITEMS in Hkey.
    repeat (apply elem_of_cons in Hkey as [Heq|Hkey];
            [injection Heq as Heq _; rewrite Heq in Hletters, Hlen;
             first [ simpl in Hlen; lia
                   | revert Hletters;
                     apply (proj1 (bool_decide_eq_false _));
                     vm_compute; reflexivity ]|]).
    by apply elem_of_nil in Hkey.
Qed.

Lemma short_day_name_alone_is_refused_witness :
  (∃ bad,
     String.length bad = 1%nat
     ∧ parse_meeting_days "Mon" = inl (ValueError (Unknown_day_token bad)))
  ∧ parse_meeting_days "Mon" = inl (ValueError (Unknown_day_token "o"))
  ∧ parse_meeting_days "Mon Mon" = inr [0].
Proof.
  split; [|split; vm_compute; reflexivity].
  apply (short_day_name_alone_is_refused "Mon" 0).
  - vm_compute. reflexivity.
  - simpl. lia.
Defined.

(** ** The reading of dates *)

(** X12. parse_date returns a date exactly when the string, stripped, has
    three fields between slashes that int accepts, month, day and year in
    this order, and they name a day of the calendar of the years 1 to 9999;
    the date is then that day. *)
Theorem parse_date_accepts_month_day_year
    (int : string → option Z) (dstr : string) (d : date) :
  parse_date int dstr = inr d
  ↔ ∃ a b c m day y,
      Str.split_on "/" (Str.strip dstr) = [a; b; c]
      ∧ int a = Some m ∧ int b = Some day ∧ int c = Some y
      ∧ 1 ≤ y ≤ 9999 ∧ 1 ≤ m ≤ 12 ∧ 1 ≤ day ≤ days_in_month y m
      ∧ d = ymd2ord y m day ∧ is_date d.
Proof.
  unfold parse_date, to_int. split.
  - destruct (Str.split_on "/" (Str.strip dstr)) as [|a [|b [|c [|x rest]]]];
      try done.
    + by destruct (int a).
    + destruct (int a); [|done]. by destruct (int b).
    + destruct (int a) as [m|] eqn:Ha; [|done].
      destruct (int b) as [day|] eqn:Hb; [|done].
      destruct (int c) as [y|] eqn:Hc; [|done]. simpl.
      intros Hd. pose proof (mkdate_is_date _ _ _ _ Hd) as Hdate.
      unfold mkdate in Hd. destruct (negb _); [done|].
      destruct ((1 <=? y) && _ && _ && _ && _ && _) eqn:Hok; [|done].
      injection Hd as <-.
      repeat (apply andb_prop in Hok as [Hok ?]).
      repeat match goal with
             | H : (_ <=? _) = true |- _ => apply Z.leb_le in H
             end.
      by exists a, b, c, m, day, y.
    + destruct (int a); [|done]. destruct (int b); [|done].
      destruct (int c); [|done]. by destruct (int x).
  - intros (a & b & c & m & day & y & -> & -> & -> & -> & Hy & Hm & Hday & -> & _).
    simpl. unfold mkdate.
    assert (Hdim : days_in_month y m ≤ 31).
    { unfold days_in_month.
      destruct (m =? 2); [by destruct (is_leap y)|]. by destruct (_ || _). }
    assert (Hfits : fits_c_int y && fits_c_int m && fits_c_int day = true).
    { unfold fits_c_int. rewrite !andb_true_iff, !Z.leb_le. lia. }
    rewrite Hfits. simpl.
    assert (Hok : (1 <=? y) && (y <=? 9999) && (1 <=? m) && (m <=? 12)
                  && (1 <=? day) && (day <=? days_in_month y m) = true).
    { rewrite !andb_true_iff, !Z.leb_le. lia. }
    by rewrite Hok.
Qed.

Lemma parse_date_accepts_month_day_year_witness :
  parse_date int_ascii " 3/12/2026 " = inr 739687.
Proof.
  apply parse_date_accepts_month_day_year.
  exists "3", "12", "2026", 3, 12, 2026.
  repeat split; try (vm_compute; reflexivity); try lia;
    vm_compute; discriminate.
Defined.

(** The length of a year. *)
Lemma days_before_next_year y :
  days_before_year (y + 1)
  = days_before_year y + (if is_leap y then 366 else 365).
Proof.
  unfold days_before_year, is_leap.
  destruct (y `mod` 4 =? 0) eqn:H4; destruct (y `mod` 100 =? 0) eqn:H100;
    destruct (y `mod` 400 =? 0) eqn:H400; simpl;
    rewrite ?Z.eqb_eq, ?Z.eqb_neq in *;
    Z.div_mod_to_equations; lia.
Qed.

Lemma days_before_year_mono a b :
  a ≤ b → days_before_year a ≤ days_before_year b.
Proof. unfold days_before_year. intros. Z.div_mod_to_equations. lia. Qed.

Lemma days_before_month_mono y m1 m2 :
  1 ≤ m1 → m1 < m2 → m2 ≤ 12 →
  days_before_month y m1 + days_in_month y m1 ≤ days_before_month y m2.
Proof.
  intros H1 Hlt H2.
  assert (m1 = 1 ∨ m1 = 2 ∨ m1 = 3 ∨ m1 = 4 ∨ m1 = 5 ∨ m1 = 6 ∨ m1 = 7
          ∨ m1 = 8 ∨ m1 = 9 ∨ m1 = 10 ∨ m1 = 11) as Hc1 by lia.
  assert (m2 = 2 ∨ m2 = 3 ∨ m2 = 4 ∨ m2 = 5 ∨ m2 = 6 ∨ m2 = 7
          ∨ m2 = 8 ∨ m2 = 9 ∨ m2 = 10 ∨ m2 = 11 ∨ m2 = 12) as Hc2 by lia.
  repeat (destruct Hc1 as [->|Hc1]); try subst m1;
    repeat (destruct Hc2 as [->|Hc2]); try subst m2; try lia;
    unfold days_before_month, seqZ, days_in_month; simpl;
    destruct (is_leap y); lia.
Qed.

(** X13. The dates that date(y, m, d) builds are ordered as the days of
    the calendar: one is before the other, as main compares end_date with
    start_date, exactly when its year is smaller, or the year is the same
    and the month smaller, or both are the same and the day smaller. *)
Theorem dates_are_ordered_as_the_calendar
    (y1 m1 d1 y2 m2 d2 : Z) (o1 o2 : date) :
  mkdate y1 m1 d1 = inr o1 → mkdate y2 m2 d2 = inr o2 →
  o1 < o2
  ↔ y1 < y2 ∨ (y1 = y2 ∧ (m1 < m2 ∨ (m1 = m2 ∧ d1 < d2))).
Proof.
  assert (Hinv : ∀ y m d o, mkdate y m d = inr o →
            1 ≤ y ∧ 1 ≤ m ≤ 12 ∧ 1 ≤ d ≤ days_in_month y m
            ∧ o = ymd2ord y m d).
  { intros y m d o. unfold mkdate. destruct (negb _); [done|].
    destruct ((1 <=? y) && _ && _ && _ && _ && _) eqn:Hok; [|done].
    intros [=<-].
    repeat (apply andb_prop in Hok as [Hok ?]).
    repeat match goal with
           | H : (_ <=? _) = true |- _ => apply Z.leb_le in H
           end.
    lia. }
  assert (Hlt : ∀ y1 m1 d1 y2 m2 d2,
            1 ≤ y1 → 1 ≤ m1 ≤ 12 → 1 ≤ d1 ≤ days_in_month y1 m1 →
            1 ≤ y2 → 1 ≤ m2 ≤ 12 → 1 ≤ d2 ≤ days_in_month y2 m2 →
            y1 < y2 ∨ (y1 = y2 ∧ (m1 < m2 ∨ (m1 = m2 ∧ d1 < d2))) →
            ymd2ord y1 m1 d1 < ymd2ord y2 m2 d2).
  { clear. intros y1 m1 d1 y2 m2 d2 Hy1 Hm1 Hd1 Hy2 Hm2 Hd2 Hcal.
    unfold ymd2ord.
    pose proof (days_before_month_bound y1 m1 Hm1).
    pose proof (days_before_month_bound y2 m2 Hm2).
    destruct Hcal as [Hy|[-> [Hm|[-> Hd]]]].
    - pose proof (days_before_next_year y1).
      pose proof (days_before_year_mono (y1 + 1) y2). lia.
    - pose proof (days_before_month_mono y2 m1 m2). lia.
    - lia. }
  intros H1 H2.
  apply Hinv in H1 as (Hy1 & Hm1 & Hd1 & ->).
  apply Hinv in H2 as (Hy2 & Hm2 & Hd2 & ->).
  split; [|by apply Hlt].
  intros Hord.
  destruct (decide (y1 < y2 ∨ (y1 = y2 ∧ (m1 < m2 ∨ (m1 = m2 ∧ d1 < d2)))))
    as [|Hnot]; [done|].
  destruct (decide (y1 = y2 ∧ m1 = m2 ∧ d1 = d2)) as [(-> & -> & ->)|Hne];
    [lia|].
  assert (ymd2ord y2 m2 d2 < ymd2ord y1 m1 d1); [|lia].
  apply Hlt; try done. lia.
Qed.

Lemma dates_are_ordered_as_the_calendar_witness :
  739687 < 739700
  ↔ 2026 < 2026 ∨ (2026 = 2026 ∧ (3 < 3 ∨ (3 = 3 ∧ 12 < 25))).
Proof.
  apply dates_are_ordered_as_the_calendar; vm_compute; reflexivity.
Defined.

(** The dates of a list of parts, read in order. *)
Lemma parse_dates_inr (int : string → option Z) parts ds :
  parse_dates int parts = inr ds
  ↔ Forall2 (fun p d => parse_date int p = inr d) parts ds.
Proof.
  revert ds. induction parts as [|p parts IH]; intros ds; simpl.
  - split; [intros [=<-]; constructor|]. by intros ->%Forall2_nil_inv_l.
  - destruct (parse_date int p) as [e|d] eqn:Hp; simpl.
    + split; [done|]. intros (d & ds' & Hd & _)%Forall2_cons_inv_l. congruence.
    + destruct (parse_dates int parts) as [e|ds'] eqn:Hps; simpl.
      * split; [done|]. intros (d' & ds' & _ & Hds & _)%Forall2_cons_inv_l.
        by apply IH in Hds.
      * split.
        -- intros [=<-]. constructor; [done|]. by apply IH.
        -- intros (d' & ds'' & Hd & Hds & ->)%Forall2_cons_inv_l.
           apply IH in Hds. congruence.
Qed.

(** X14. parse_date_list returns a set exactly when every part of the
    string, cut at commas and whitespace, is read by parse_date; the set
    holds the dates of the parts, each once. The empty string, which the
    function answers at once, is no exception: it has no part. *)
Theorem parse_date_list_reads_every_part
    (int : string → option Z) (s : string) (dates : gset date) :
  parse_date_list int s = inr dates
  ↔ ∃ ds,
      Forall2 (fun p d => parse_date int p = inr d)
        (Str.split (Str.replace "," " " s)) ds
      ∧ dates = list_to_set ds.
Proof.
  unfold parse_date_list. case_bool_decide as Hs.
  - subst s. change (Str.split (Str.replace "," " " EmptyString)) with (@nil string).
    split.
    + intros [=<-]. exists []. split; [constructor|done].
    + intros (ds & ->%Forall2_nil_inv_l & ->). done.
  - destruct (parse_dates int (Str.split (Str.replace "," " " s)))
      as [e|ds] eqn:Hds; simpl.
    + split; [done|]. intros (ds & Hall%parse_dates_inr & _). congruence.
    + split.
      * intros [=<-]. exists ds. split; [by apply parse_dates_inr|done].
      * intros (ds' & Hall%parse_dates_inr & ->). congruence.
Qed.

Lemma parse_date_list_reads_every_part_witness :
  parse_date_list int_ascii "3/27/2026,4/10/2026 3/27/2026"
  = inr (list_to_set [739702; 739716; 739702]).
Proof.
  apply parse_date_list_reads_every_part.
  exists [739702; 739716; 739702]. split; [|reflexivity].
  change (Str.split (Str.replace "," " " "3/27/2026,4/10/2026 3/27/2026"))
    with ["3/27/2026"; "4/10/2026"; "3/27/2026"].
  repeat constructor; vm_compute; reflexivity.
Defined.

(** ** The stages of main *)

(** With four tokens or more, [main] goes through its stages in order and
    stops at the first that raises. *)
Lemma main_stages (int : string → option Z)
    (strftime : date → string → string) a0 a1 a2 a3 rest w :
  let argv := a0 :: a1 :: a2 :: a3 :: rest in
  main int strftime argv w
  = match parse_date int a1 with
    | inl e => (Raises e, w)
    | inr start_date =>
        match parse_date int a2 with
        | inl e => (Raises e, w)
        | inr end_date =>
            if end_date <? start_date
            then (Raises (SystemExit_msg
                            "end_date must be on or after start_date"), w)
            else
              match parse_meeting_days a3 with
              | inl e => (Raises e, w)
              | inr meeting_days =>
                  match no_class_option int argv with
                  | inl e => (Raises e, w)
                  | inr no_class_dates =>
                      write_schedule strftime start_date end_date
                        meeting_days no_class_dates w
                  end
              end
        end
    end.
Proof.
  intros argv. subst argv.
  destruct (parse_date int a1) as [e|s] eqn:H1.
  { unfold main. rewrite bool_decide_eq_false_2 by (cbn [length]; lia).
    change (item (a0 :: a1 :: a2 :: a3 :: rest) 1)
      with (inr a1 : result string).
    cbv beta iota delta [bind lift ret raise]. by rewrite H1. }
  destruct (parse_date int a2) as [e|e] eqn:H2.
  { unfold main. rewrite bool_decide_eq_false_2 by (cbn [length]; lia).
    change (item (a0 :: a1 :: a2 :: a3 :: rest) 1)
      with (inr a1 : result string).
    change (item (a0 :: a1 :: a2 :: a3 :: rest) 2)
      with (inr a2 : result string).
    cbv beta iota delta [bind lift ret raise]. rewrite H1.
    cbv beta iota delta [bind lift ret raise]. by rewrite H2. }
  apply (main_run int strftime a0 a1 a2 a3 rest s e w H1 H2).
Qed.

(** The exceptions of the stages. *)
Lemma parse_date_raises (int : string → option Z) dstr e :
  parse_date int dstr = inl e →
  e = OverflowError
  ∨ e = ValueError Not_enough_values ∨ e = ValueError Too_many_values
  ∨ e = ValueError Date_out_of_range
  ∨ ∃ x, e = ValueError (Invalid_literal x).
Proof.
  unfold parse_date, to_int.
  destruct (Str.split_on "/" (Str.strip dstr)) as [|a [|b [|c [|x rest]]]];
    repeat match goal with
           | |- context [int ?t] => destruct (int t); simpl
           end;
    try (intros [=<-]; eauto 10).
  unfold mkdate. destruct (negb _); [intros [=<-]; eauto|].
  destruct (_ && _); [done|]. intros [=<-]. eauto 10.
Qed.

Lemma parse_dates_raises (int : string → option Z) parts e :
  parse_dates int parts = inl e → ∃ p, parse_date int p = inl e.
Proof.
  induction parts as [|p parts IH]; simpl; [done|].
  destruct (parse_date int p) as [e'|d] eqn:Hp; simpl.
  - intros [=<-]. by exists p.
  - destruct (parse_dates int parts); simpl; [|done]. intros [=<-]. by apply IH.
Qed.

Lemma parse_meeting_days_raises s e :
  parse_meeting_days s = inl e → ∃ tok, e = ValueError (Unknown_day_token tok).
Proof.
  unfold parse_meeting_days.
  destruct (collect_weekdays (tokens_of s) []) as [e'|wds] eqn:Hwds; [|done].
  simpl. intros [=<-]. revert Hwds.
  generalize (tokens_of s). generalize (@nil Z).
  intros acc tokens. revert acc.
  induction tokens as [|t tokens IH]; intros acc; cbn [collect_weekdays]; [done|].
  destruct (DAY_NAME_MAP !! Str.lower t); [apply IH|].
  intros [=<-]. by exists t.
Qed.

Lemma week_meetings_raises start_date end_date excluded ws days acc e :
  week_meetings start_date end_date excluded ws days acc = inl e →
  e = OverflowError.
Proof.
  revert acc. induction days as [|wd days IH]; intros acc; csimpl; [done|].
  destruct (date_add ws wd) as [e'|d] eqn:Hd; csimpl.
  - intros [=<-]. by apply date_add_inl in Hd as [-> _].
  - apply IH.
Qed.

Lemma build_schedule_raises start_date end_date meeting_days excluded e :
  (build_schedule start_date end_date meeting_days excluded).2 = Raised e →
  e = OverflowError.
Proof.
  unfold build_schedule.
  destruct (date_add start_date (- weekday start_date)) as [e'|fm] eqn:Hfm.
  { simpl. intros [=<-]. by apply date_add_inl in Hfm as [-> _]. }
  generalize (Z.to_nat (end_date - fm) + 2)%nat 0. intros fuel.
  induction fuel as [|fuel IH]; intros idx; simpl; [done|].
  destruct (date_add fm (7 * idx)) as [e'|ws] eqn:Hws.
  { simpl. intros [=<-]. by apply date_add_inl in Hws as [-> _]. }
  destruct (date_add ws 6) as [e'|we] eqn:Hwe.
  { simpl. intros [=<-]. by apply date_add_inl in Hwe as [-> _]. }
  destruct (end_date <? ws); [done|].
  destruct (week_meetings _ _ _ ws meeting_days []) as [e'|ms] eqn:Hms.
  { simpl. intros [=<-]. by apply week_meetings_raises in Hms. }
  specialize (IH (idx + 1)).
  by destruct (schedule_loop _ _ _ _ fuel fm (idx + 1)).
Qed.

Lemma index_elem x l : x ∈ l → ∃ i, index x l = inr i ∧ l !! i = Some x.
Proof.
  induction l as [|y l IH]; intros Hin; [by apply elem_of_nil in Hin|].
  cbn [index]. case_bool_decide as Hy.
  - subst y. by exists O.
  - apply elem_of_cons in Hin as [->|Hin]; [done|].
    destruct (IH Hin) as (i & -> & Hi). by exists (S i).
Qed.

(** The first [--no-class] token and what follows it. *)
Lemma no_class_option_cases (int : string → option Z) argv :
  (("--no-class" ∉ argv) ∧ no_class_option int argv = inr ∅)
  ∨ (∃ front, argv = front ++ ["--no-class"] ∧ ("--no-class" ∉ front)
              ∧ no_class_option int argv
                = inl (SystemExit_msg "--no-class requires a value"))
  ∨ (∃ front value rest,
       argv = front ++ "--no-class" :: value :: rest
       ∧ ("--no-class" ∉ front)
       ∧ no_class_option int argv = parse_date_list int value).
Proof.
  destruct (decide ("--no-class" ∈ argv)) as [Hin|Hnot];
    [|left; split; [done|by apply no_class_option_absent]].
  right.
  apply list_elem_of_split_l in Hin as (front & back & -> & Hnot).
  destruct back as [|value rest].
  - left. exists front. split; [done|]. split; [done|].
    by apply no_class_option_missing.
  - right. exists front, value, rest. split; [done|]. split; [done|].
    unfold no_class_option.
    rewrite bool_decide_eq_true_2 by set_solver.
    assert (Hidx : index "--no-class" (front ++ "--no-class" :: value :: rest)
                   = inr (length front)).
    { clear -Hnot. induction front as [|y front IH]; cbn [index app length].
      - by rewrite bool_decide_eq_true_2.
      - apply not_elem_of_cons in Hnot as [Hne Hnot].
        rewrite bool_decide_eq_false_2 by done. by rewrite IH. }
    rewrite Hidx. cbn [bind_result].
    rewrite bool_decide_eq_false_2
      by (rewrite length_app; cbn [length]; lia).
    unfold item.
    replace ((front ++ "--no-class" :: value :: rest) !! (length front + 1)%nat)
      with (Some value); [done|].
    rewrite lookup_app_r by lia.
    by replace (length front + 1 - length front)%nat with 1%nat by lia.
Qed.

(** ** The names of the files *)

Lemma append_length s t :
  String.length (s +:+ t) = (String.length s + String.length t)%nat.
Proof. induction s as [|c s IH]; simpl; [done|]. by rewrite IH. Qed.

Lemma append_inj_r s1 s2 t : s1 +:+ t = s2 +:+ t → s1 = s2.
Proof.
  revert s2. induction s1 as [|c s1 IH]; intros [|c2 s2] Heq.
  - done.
  - apply (f_equal String.length) in Heq.
    rewrite !append_length in Heq. simpl in Heq. lia.
  - apply (f_equal String.length) in Heq.
    rewrite !append_length in Heq. simpl in Heq. lia.
  - simpl in Heq. injection Heq as -> Heq. f_equal. by apply IH.
Qed.

(** The number can be read back from its two-digit form. *)
Lemma format_02d_read_back n :
  Z.of_int <$> NilZero.int_of_string (format_02d n) = Some n.
Proof.
  unfold format_02d.
  destruct ((0 <=? n) && (n <? 10)) eqn:Hsmall.
  - apply andb_prop in Hsmall as [H0%Z.leb_le H10%Z.ltb_lt].
    assert (n = 0 ∨ n = 1 ∨ n = 2 ∨ n = 3 ∨ n = 4 ∨ n = 5 ∨ n = 6 ∨ n = 7
            ∨ n = 8 ∨ n = 9) as Hn by lia.
    repeat (destruct Hn as [->|Hn]); try subst n; reflexivity.
  - unfold str_of_Z. rewrite NilZero.isi.
    + simpl. by rewrite DecimalZ.of_to.
    + destruct n; simpl; try done.
      intros [= H]. by apply DecimalPos.Unsigned.to_uint_nonnil in H.
    + destruct n; simpl; try done.
      intros [= H]. by apply DecimalPos.Unsigned.to_uint_nonnil in H.
Qed.

Lemma week_filename_inj n1 n2 : week_filename n1 = week_filename n2 → n1 = n2.
Proof.
  unfold week_filename. intros Heq. simpl in Heq.
  injection Heq as Heq.
  change (format_02d n1 +:+ ".ptx" = format_02d n2 +:+ ".ptx") in Heq.
  apply append_inj_r in Heq.
  pose proof (format_02d_read_back n1) as H1.
  rewrite Heq, format_02d_read_back in H1. by injection H1.
Qed.

Lemma week_filename_not_main n : week_filename n ≠ "main.ptx".
Proof. unfold week_filename. simpl. discriminate. Qed.

(** ** What a run writes *)

(** A run with four tokens or more: the weeks whose files it writes, then
    main.ptx when it returns; the exception it raises otherwise. *)
Lemma main_writes (int : string → option Z)
    (strftime : date → string → string) (argv : list string) (w : world) :
  (4 ≤ length argv)%nat →
  run_writes strftime w (main int strftime argv w).
Proof.
  intros Hlen.
  destruct argv as [|a0 [|a1 [|a2 [|a3 rest]]]];
    try (cbn [length] in Hlen; lia).
  rewrite main_stages.
  assert (Hfail : ∀ e,
            e ≠ IndexError → e ≠ ValueError Not_in_list →
            (∀ status, e ≠ SystemExit_code status) →
            run_writes strftime w (Raises e, w)).
  { intros e ? ? ?. exists []. split; [done|]. right. exists e.
    destruct w. simpl. by rewrite !app_nil_r. }
  assert (Hdate : ∀ dstr e, parse_date int dstr = inl e →
            e ≠ IndexError ∧ e ≠ ValueError Not_in_list
            ∧ ∀ status, e ≠ SystemExit_code status).
  { intros dstr e He.
    apply parse_date_raises in He as [->|[->|[->|[->|[x ->]]]]]; done. }
  destruct (parse_date int a1) as [e|s] eqn:H1.
  { destruct (Hdate _ _ H1) as (? & ? & ?). by apply Hfail. }
  destruct (parse_date int a2) as [e|e] eqn:H2.
  { destruct (Hdate _ _ H2) as (? & ? & ?). by apply Hfail. }
  destruct (e <? s); [by apply Hfail|].
  destruct (parse_meeting_days a3) as [err|days] eqn:H3.
  { apply parse_meeting_days_raises in H3 as [tok ->]. by apply Hfail. }
  destruct (no_class_option int _) as [err|x] eqn:H4.
  { destruct (no_class_option_cases int (a0 :: a1 :: a2 :: a3 :: rest))
      as [[_ Heq]|[(front & _ & _ & Heq)|(front & value & back & _ & _ & Heq)]];
      rewrite Heq in H4; try done.
    - injection H4 as <-. by apply Hfail.
    - unfold parse_date_list in H4. case_bool_decide; [done|].
      destruct (parse_dates int _) as [e'|ds] eqn:Hds; [|done].
      simpl in H4. injection H4 as <-.
      apply parse_dates_raises in Hds as [p Hp].
      destruct (Hdate _ _ Hp) as (? & ? & ?). by apply Hfail. }
  clear Hfail Hdate. rewrite write_schedule_run.
  pose proof (build_schedule_numbers s e days x) as Hnum.
  pose proof (build_schedule_finishes s e days x) as Hfin.
  pose proof (build_schedule_raises s e days x) as Hraise.
  destruct (build_schedule s e days x) as [weeks fin]. simpl in *.
  exists weeks. split; [done|].
  assert (Hlines : (fun wk => "Wrote " +:+ week_filename (week_number wk))
                     <$> weeks
                   = wrote_line <$> (week_file strftime <$> weeks)).
  { by rewrite <-list_fmap_compose. }
  rewrite Hlines.
  destruct fin as [|err|]; [left|right|done].
  - by rewrite <-!app_assoc.
  - exists err. rewrite (Hraise err eq_refl). done.
Qed.

(** Where a token occurs first in a list. *)
Lemma first_occurrence_unique (x : string) (f1 f2 b1 b2 : list string) :
  f1 ++ x :: b1 = f2 ++ x :: b2 → x ∉ f1 → x ∉ f2 → f1 = f2 ∧ b1 = b2.
Proof.
  intros Heq H1 H2.
  assert (Hlen : length f1 = length f2).
  { destruct (Nat.lt_trichotomy (length f1) (length f2)) as [Hl|[?|Hl]];
      [exfalso|done|exfalso].
    - apply H2. apply (list_elem_of_lookup_2 _ (length f1)).
      rewrite <-(lookup_app_l _ (x :: b2)) by done.
      rewrite <-Heq. by rewrite list_lookup_middle.
    - apply H1. apply (list_elem_of_lookup_2 _ (length f2)).
      rewrite <-(lookup_app_l _ (x :: b1)) by done.
      rewrite Heq. by rewrite list_lookup_middle. }
  apply app_inj_1 in Heq as [-> Heq]; [|done]. by injection Heq as ->.
Qed.

(** X15. With arguments that pass the earlier checks, the token after the
    first --no-class token is the exclusion list, wherever the flag stands
    and whatever follows: the run raises what parse_date_list raises on
    that token, and otherwise writes the schedule without the dates that it
    returns. *)
Theorem exclusions_follow_first_flag
    (int : string → option Z) (strftime : date → string → string)
    (a0 a1 a2 a3 : string) (rest front back : list string) (value : string)
    (start_date end_date : date) (meeting_days : list Z) (w : world) :
  let argv := a0 :: a1 :: a2 :: a3 :: rest in
  argv = front ++ "--no-class" :: value :: back →
  "--no-class" ∉ front →
  parse_date int a1 = inr start_date →
  parse_date int a2 = inr end_date →
  start_date ≤ end_date →
  parse_meeting_days a3 = inr meeting_days →
  main int strftime argv w
  = match parse_date_list int value with
    | inl e => (Raises e, w)
    | inr no_class_dates =>
        write_schedule strftime start_date end_date meeting_days
          no_class_dates w
    end.
Proof.
  intros argv Hargv Hnot H1 H2 Hle H3. subst argv.
  rewrite main_stages, H1, H2, H3.
  destruct (end_date <? start_date) eqn:Hlt; [apply Z.ltb_lt in Hlt; lia|].
  destruct (no_class_option_cases int (a0 :: a1 :: a2 :: a3 :: rest))
    as [[Habsent _]|[(f & Hf & Hfnot & _)|(f & v & b & Hf & Hfnot & ->)]].
  - exfalso. apply Habsent. rewrite Hargv. set_solver.
  - rewrite Hargv in Hf.
    by apply first_occurrence_unique in Hf as [_ ?].
  - rewrite Hargv in Hf.
    apply first_occurrence_unique in Hf as [_ Hf]; [|done..].
    by injection Hf as <- _.
Qed.

Lemma exclusions_follow_first_flag_witness :
  main int_ascii strftime_c
    ["make_weeks.py"; "3/12/2026"; "3/25/2026"; "Mon Wed"; "--no-class";
     "3/18/2026"; "--no-class"; "3/23/2026"] init
  = match parse_date_list int_ascii "3/18/2026" with
    | inl e => (Raises e, init)
    | inr no_class_dates =>
        write_schedule strftime_c 739687 739700 [0; 2] no_class_dates init
    end.
Proof.
  apply (exclusions_follow_first_flag int_ascii strftime_c
           "make_weeks.py" "3/12/2026" "3/25/2026" "Mon Wed"
           ["--no-class"; "3/18/2026"; "--no-class"; "3/23/2026"]
           ["make_weeks.py"; "3/12/2026"; "3/25/2026"; "Mon Wed"]
           ["--no-class"; "3/23/2026"] "3/18/2026").
  - reflexivity.
  - rewrite !not_elem_of_cons. repeat split; try discriminate.
    apply not_elem_of_nil.
  - vm_compute. reflexivity.
  - vm_compute. reflexivity.
  - lia.
  - vm_compute. reflexivity.
Defined.

(** X16. Without the --no-class token among the arguments, everything
    after the meeting days is ignored, and so is the name of the program:
    the run is the run on the three positional arguments alone. *)
Theorem extra_tokens_are_ignored
    (int : string → option Z) (strftime : date → string → string)
    (a0 a0' a1 a2 a3 : string) (rest : list string) (w : world) :
  "--no-class" ∉ a0 :: a1 :: a2 :: a3 :: rest →
  a0' ≠ "--no-class" →
  main int strftime (a0 :: a1 :: a2 :: a3 :: rest) w
  = main int strftime [a0'; a1; a2; a3] w.
Proof.
  intros Hnot Hne. rewrite !main_stages.
  rewrite (no_class_option_absent int _ Hnot).
  rewrite (no_class_option_absent int [a0'; a1; a2; a3]); [done|].
  rewrite !not_elem_of_cons in Hnot. rewrite !not_elem_of_cons.
  repeat split; try tauto; try done. apply not_elem_of_nil.
Qed.

Lemma extra_tokens_are_ignored_witness :
  main int_ascii strftime_c
    ["make_weeks.py"; "3/12/2026"; "3/25/2026"; "MWF"; "--noclass";
     "3/18/2026"] init
  = main int_ascii strftime_c
      ["make_weeks.py"; "3/12/2026"; "3/25/2026"; "MWF"] init.
Proof.
  apply extra_tokens_are_ignored.
  - rewrite !not_elem_of_cons. repeat split; try discriminate.
    apply not_elem_of_nil.
  - discriminate.
Defined.



(** X18. In a run that returns, no file is written twice: the names of the
    files written are pairwise distinct, main.ptx among them. *)
Theorem files_are_written_once
    (int : string → option Z) (strftime : date → string → string)
    (argv : list string) (w w' : world) :
  main int strftime argv w = (Returns tt, w') →
  ∃ written,
    files w' = files w ++ written
    ∧ NoDup written.*1
    ∧ "main.ptx" ∈ written.*1.
Proof.
  intros Hrun. destruct (decide (length argv < 4)%nat) as [Hlen|Hlen].
  { by rewrite main_usage in Hrun. }
  destruct (main_writes int strftime argv w) as (weeks & Hnum & [Hr|Hr]);
    [lia| |].
  2:{ destruct Hr as (e' & Hr & _). rewrite Hrun in Hr. discriminate Hr. }
  rewrite Hrun in Hr. injection Hr as ->.
  eexists. split; [reflexivity|].
  assert (Hnames : (week_file strftime <$> weeks).*1
                   = week_filename <$> seqZ 1 (Z.of_nat (length weeks))).
  { by rewrite <-list_fmap_compose, <-Hnum, <-list_fmap_compose. }
  rewrite fmap_app, Hnames.
  split; [|apply elem_of_app; right; by left].
  apply NoDup_app. split; [|split].
  - apply NoDup_fmap_2_strong; [|apply NoDup_seqZ].
    intros ?? _ _. apply week_filename_inj.
  - intros name (n & -> & _)%list_elem_of_fmap Hmain%list_elem_of_singleton.
    by apply (week_filename_not_main n).
  - apply NoDup_singleton.
Qed.

Lemma files_are_written_once_witness :
  let argv := ["make_weeks.py"; "3/12/2026"; "3/25/2026"; "Mon Wed"] in
  let w' := (main int_ascii strftime_c argv init).2 in
  main int_ascii strftime_c argv init = (Returns tt, w')
  ∧ ∃ written,
      files w' = files init ++ written
      ∧ NoDup written.*1
      ∧ "main.ptx" ∈ written.*1.
Proof.
  intros argv w'.
  assert (Hrun : main int_ascii strftime_c argv init = (Returns tt, w'))
    by (vm_compute; reflexivity).
  split; [exact Hrun|].
  exact (files_are_written_once _ _ _ _ _ Hrun).
Defined.

(** X19. A run given four tokens or more prints one line per file that it
    writes, Wrote and the name of the file, in the order of the writes, and
    nothing else, whether it returns or raises. *)
Theorem one_line_per_file_written
    (int : string → option Z) (strftime : date → string → string)
    (argv : list string) (w : world) :
  (4 ≤ length argv)%nat →
  let w' := (main int strftime argv w).2 in
  ∃ written,
    files w' = files w ++ written
    ∧ stdout w' = stdout w ++ (wrote_line <$> written).
Proof.
  intros Hlen.
  destruct (main_writes int strftime argv w Hlen)
    as (weeks & _ & [->|(e & -> & _)]); cbn [snd files stdout].
  - eexists. split; [reflexivity|]. by rewrite fmap_app.
  - eexists. split; reflexivity.
Qed.

Lemma one_line_per_file_written_witness :
  let w' := (main int_ascii strftime_c
               ["make_weeks.py"; "3/12/2026"; "3/25/2026"; "Mon Wed"] init).2 in
  ∃ written,
    files w' = files init ++ written
    ∧ stdout w' = stdout init ++ (wrote_line <$> written).
Proof.
  apply one_line_per_file_written. simpl. lia.
Defined.

(** X20. The accesses argv[1], argv[2], argv[3], argv.index and
    argv[idx + 1] of main are all guarded: no run raises IndexError or the
    ValueError of index; and a run exits with a status code exactly when it
    has fewer than four tokens, the status being 1. *)
Theorem main_accesses_are_guarded
    (int : string → option Z) (strftime : date → string → string)
    (argv : list string) (w : world) :
  (main int strftime argv w).1 ≠ Raises IndexError
  ∧ (main int strftime argv w).1 ≠ Raises (ValueError Not_in_list)
  ∧ ∀ status,
      (main int strftime argv w).1 = Raises (SystemExit_code status)
      ↔ (length argv < 4)%nat ∧ status = 1.
Proof.
  destruct (decide (length argv < 4)%nat) as [Hlen|Hlen].
  { rewrite main_usage by done. simpl. split; [done|]. split; [done|].
    intros status. split; [by intros [=<-]|by intros [_ ->]]. }
  destruct (main_writes int strftime argv w) as (weeks & _ & [->|Hr]);
    [lia| |].
  { simpl. split; [done|]. split; [done|]. intros status. split; [done|lia]. }
  destruct Hr as (e & -> & _ & H1 & H2 & H3). simpl.
  split; [congruence|]. split; [congruence|].
  intros status. split; [|lia]. intros [= ->]. by destruct (H3 status).
Qed.

(** ** The number of the week in the names *)

(** X21. The two-digit form of a week number from 0 to 99 has exactly two
    characters, so that the week files of up to 99 weeks are named
    weekNN.ptx; and the number can be read back from the form, whatever
    the number, so that two weeks never share a file name. *)
Theorem week_numbers_in_file_names :
  (∀ n, 0 ≤ n ≤ 99 → String.length (format_02d n) = 2%nat)
  ∧ (∀ n, Z.of_int <$> NilZero.int_of_string (format_02d n) = Some n)
  ∧ (∀ n1 n2, week_filename n1 = week_filename n2 → n1 = n2).
Proof.
  split; [|split].
  - intros n Hn.
    assert (Hall : Forall (fun n => String.length (format_02d n) = 2%nat)
                     (seqZ 0 100)).
    { apply (bool_decide_unpack _). vm_compute. exact I. }
    rewrite Forall_seqZ in Hall. apply Hall. lia.
  - apply format_02d_read_back.
  - apply week_filename_inj.
Qed.

Lemma week_numbers_in_file_names_witness :
  String.length (format_02d 7) = 2%nat
  ∧ week_filename 7 = "week07.ptx"
  ∧ week_filename 123 = "week123.ptx".
Proof.
  split; [|split; vm_compute; reflexivity].
  apply (proj1 week_numbers_in_file_names). lia.
Defined.

(** X22. For a range and a pattern as in C3, the number of weeks yielded,
    and so of week files written, is the number of weeks from the Monday
    of start_date to the Monday of end_date, both counted. *)
Theorem number_of_weeks
    (start_date end_date : date) (meeting_days : list Z)
    (no_class_dates : gset date) :
  is_date start_date → is_date end_date → start_date ≤ end_date →
  MeetingDayPattern meeting_days →
  end_date - weekday end_date + 13 ≤ MAXORDINAL →
  Z.of_nat
    (length (build_schedule start_date end_date meeting_days
               no_class_dates).1)
  = ((end_date - weekday end_date) - (start_date - weekday start_date)) / 7 + 1.
Proof.
  intros Hs He Hle [_ Hdays] Hmax.
  destruct (build_schedule_complete start_date end_date meeting_days
              no_class_dates) as [_ ->]; try done.
  pose proof (weekday_range start_date). pose proof (weekday_range end_date).
  unfold weekday in *. Z.div_mod_to_equations. lia.
Qed.

Lemma number_of_weeks_witness :
  Z.of_nat (length (build_schedule 739687 739700 [0; 2] {[ 739693 ]}).1)
  = ((739700 - weekday 739700) - (739687 - weekday 739687)) / 7 + 1.
Proof.
  apply number_of_weeks.
  - unfold is_date, MAXORDINAL. lia.
  - unfold is_date, MAXORDINAL. lia.
  - lia.
  - split; repeat constructor; lia.
  - vm_compute. discriminate.
Defined.

Lemma main_returns_witness :
  (main int_ascii strftime_c
     ["make_weeks.py"; "3/12/2026"; "3/25/2026"; "Mon Wed"; "--no-class";
      "3/18/2026"] init).1 = Returns tt.
Proof.
  apply (main_returns int_ascii strftime_c
           "make_weeks.py" "3/12/2026" "3/25/2026" "Mon Wed"
           ["--no-class"; "3/18/2026"] 739687 739700 [0; 2] {[ 739693 ]}).
  - vm_compute. reflexivity.
  - vm_compute. reflexivity.
  - lia.
  - vm_compute. discriminate.
  - vm_compute. reflexivity.
  - vm_compute. reflexivity.
Defined.
